(** * ContentWebScrapper (khoben/webscrapper, scrapper.py)

    A shallow embedding of [ContentWebScrapper]: the BeautifulSoup tree the
    scrapper queries, the target resolution of [get_target] with its two
    extraction helpers [get_attr] and [get_text], the polling loop of
    [check_page_loaded] and the driver method [run].

    Python values are modelled by the shapes the code produces: a resolved
    value is a [str] or a [list] of [str]; a raised exception is an [exn]
    tagged with its Python class.  The objects the code mutates ([self], the
    page-load checker dictionary, the soup) are threaded explicitly. *)

From stdpp Require Import gmap strings list.
From Stdlib Require Import ZArith Ascii String.

Local Open Scope string_scope.
Local Open Scope Z_scope.
Local Open Scope list_scope.

(** ** Python strings: [str.strip] *)

(** A Python [str] is held as the bytes of its UTF-8 encoding, which is
    what a string literal of this file denotes. *)
Module PyStr.

Definition code (a : ascii) : nat := nat_of_ascii a.

(** The white space of [str.strip()] (that of [str.isspace()]), by the
    length of its encoding.  One byte: U+0009 to U+000D, U+001C to
    U+0020. *)
Definition space1 (a : ascii) : bool :=
  let n := code a in
  ((9 <=? n)%nat && (n <=? 13)%nat) || ((28 <=? n)%nat && (n <=? 32)%nat).

(** Two bytes: U+0085 ([C2 85]) and U+00A0 ([C2 A0]). *)
Definition space2 (a b : ascii) : bool :=
  (code a =? 194)%nat && ((code b =? 133)%nat || (code b =? 160)%nat).

(** Three bytes: U+1680 ([E1 9A 80]); U+2000 to U+200A, U+2028, U+2029
    and U+202F ([E2 80 80] to [E2 80 8A], [E2 80 A8], [E2 80 A9],
    [E2 80 AF]); U+205F ([E2 81 9F]); U+3000 ([E3 80 80]). *)
Definition space3 (a b c : ascii) : bool :=
  ((code a =? 225)%nat && (code b =? 154)%nat && (code c =? 128)%nat)
  || ((code a =? 226)%nat && (code b =? 128)%nat
      && (((128 <=? code c)%nat && (code c <=? 138)%nat)
          || (code c =? 168)%nat || (code c =? 169)%nat || (code c =? 175)%nat))
  || ((code a =? 226)%nat && (code b =? 129)%nat && (code c =? 159)%nat)
  || ((code a =? 227)%nat && (code b =? 128)%nat && (code c =? 128)%nat).

(** Dropping the leading characters recognised by [w1], [w2] and [w3],
    which look at one, two and three bytes. *)
Fixpoint lstrip_by (w1 : ascii -> bool) (w2 : ascii -> ascii -> bool)
    (w3 : ascii -> ascii -> ascii -> bool) (l : list ascii) : list ascii :=
  match l with
  | [] => []
  | a :: l1 =>
      if w1 a then lstrip_by w1 w2 w3 l1
      else
        match l1 with
        | [] => l
        | b :: l2 =>
            if w2 a b then lstrip_by w1 w2 w3 l2
            else
              match l2 with
              | [] => l
              | c :: l3 => if w3 a b c then lstrip_by w1 w2 w3 l3 else l
              end
        end
  end.

Definition lstrip_bytes (l : list ascii) : list ascii :=
  lstrip_by space1 space2 space3 l.

(** Trailing white space is leading white space of the reversed bytes,
    each character read backwards. *)
Definition rstrip_bytes (l : list ascii) : list ascii :=
  rev (lstrip_by space1 (fun a b => space2 b a) (fun a b c => space3 c b a) (rev l)).

Definition strip_bytes (l : list ascii) : list ascii :=
  rstrip_bytes (lstrip_bytes l).

Definition lstrip (s : string) : string :=
  string_of_list_ascii (lstrip_bytes (list_ascii_of_string s)).

Definition rstrip (s : string) : string :=
  string_of_list_ascii (rstrip_bytes (list_ascii_of_string s)).

(** [s.strip()] *)
Definition strip (s : string) : string :=
  string_of_list_ascii (strip_bytes (list_ascii_of_string s)).

Fixpoint join (l : list string) : string :=
  match l with
  | [] => EmptyString
  | s :: l' => String.append s (join l')
  end.

End PyStr.

(** ** Values and exceptions *)

(** What [get_target] can return: [''] or a list comprehension of strings. *)
Inductive pyval : Type :=
| PStr (s : string)
| PList (l : list string).

(** Python truthiness of a resolved value ([if confirmation_tag:]). *)
Definition truthy (v : pyval) : bool :=
  match v with
  | PStr s => negb (String.eqb s "")
  | PList l => match l with [] => false | _ :: _ => true end
  end.

(** Exceptions, by class.  [ValueError] carries the message given in the
    source; [AttributeError] the attribute looked up on [None]; [NameError]
    and [UnboundLocalError] the unbound name; [KeyError] the missing key;
    [ExternalError] stands for whatever a collaborator (requests, an extra
    function) raises. *)
Inductive exn : Type :=
| ValueError (msg : string)
| AttributeError (attribute : string)
| NameError (name : string)
| UnboundLocalError (name : string)
| KeyError (k : string)
| TypeError
| ExternalError (msg : string).

Inductive outcome (A : Type) : Type :=
| Returns (a : A)
| Raises (e : exn).
Arguments Returns {A} a.
Arguments Raises {A} e.

Definition obind {A B} (o : outcome A) (k : A -> outcome B) : outcome B :=
  match o with
  | Returns a => k a
  | Raises e => Raises e
  end.

(** A list comprehension whose element expression may raise: elements are
    evaluated left to right and the first exception aborts it. *)
Fixpoint comprehension {A B} (f : A -> outcome B) (l : list A) : outcome (list B) :=
  match l with
  | [] => Returns []
  | a :: l' =>
      obind (f a) (fun b => obind (comprehension f l') (fun bs => Returns (b :: bs)))
  end.

(** ** The parsed document *)

(** The classes of the strings of a BeautifulSoup tree other than plain
    [NavigableString]: [Comment] also stands for the declarations,
    doctypes and processing instructions, which are treated alike. *)
Inductive StringClass : Type :=
| CData | Comment | Script | Stylesheet | TemplateString
| RubyTextString | RubyParenthesisString.

(** An attribute value: a string, or the list of strings BeautifulSoup
    keeps for a multi-valued attribute such as [class] or [rel]. *)
Inductive AttrValue : Type :=
| AttrStr (s : string)
| AttrList (l : list string).

(** A BeautifulSoup tree: strings, plain or of a class of their own, and
    tags with a name, an attribute dictionary and children. *)
#[warnings="-register-all"]
Inductive Node : Type :=
| NavigableString (s : string)
| SpecialString (c : StringClass) (s : string)
| Tag (name : string) (attrs : gmap string AttrValue) (contents : list Node).

(** The [BeautifulSoup] object is the list of its top-level nodes. *)
Abbreviation Soup := (list Node).

(** The tags below (and including) a node, in document order. *)
Fixpoint tags_of (n : Node) : list Node :=
  match n with
  | NavigableString _ | SpecialString _ _ => []
  | Tag _ _ cs =>
      n :: (fix go (l : list Node) : list Node :=
              match l with
              | [] => []
              | c :: l' => tags_of c ++ go l'
              end) cs
  end.

Definition descendants (soup : Soup) : list Node := flat_map tags_of soup.

(** The class of strings a tag of this name holds when the tree is built
    by a parser (the builder's [string_containers]). *)
Definition string_container (nm : string) : option StringClass :=
  if String.eqb nm "script" then Some Script
  else if String.eqb nm "style" then Some Stylesheet
  else if String.eqb nm "template" then Some TemplateString
  else if String.eqb nm "rt" then Some RubyTextString
  else if String.eqb nm "rp" then Some RubyParenthesisString
  else None.

Definition same_class (c c' : StringClass) : bool :=
  match c, c' with
  | CData, CData | Comment, Comment | Script, Script | Stylesheet, Stylesheet
  | TemplateString, TemplateString | RubyTextString, RubyTextString
  | RubyParenthesisString, RubyParenthesisString => true
  | _, _ => false
  end.

(** The strings [get_text()] of a tag named [nm] collects (its
    [interesting_string_types]): plain strings and CDATA sections, or for
    a string container the strings of its own class; [None] is the plain
    class. *)
Definition interesting (nm : string) (c : option StringClass) : bool :=
  match string_container nm, c with
  | Some k, Some c => same_class k c
  | Some _, None => false
  | None, None | None, Some CData => true
  | None, Some _ => false
  end.

(** The strings the [BeautifulSoup] object itself collects. *)
Definition plain (c : option StringClass) : bool :=
  match c with
  | None | Some CData => true
  | Some _ => false
  end.

(** The concatenation of the strings below (and including) a node whose
    class is accepted by [keep], at any depth. *)
Fixpoint strings_below (keep : option StringClass -> bool) (n : Node) : string :=
  match n with
  | NavigableString s => if keep None then s else EmptyString
  | SpecialString c s => if keep (Some c) then s else EmptyString
  | Tag _ _ cs =>
      (fix go (l : list Node) : string :=
         match l with
         | [] => EmptyString
         | c :: l' => String.append (strings_below keep c) (go l')
         end) cs
  end.

(** [Tag.get_text()]: the strings below the tag that are of the class
    the tag is interested in; those of other classes, such as the text of
    a script or a style sheet inside a [div], are left out. *)
Definition node_text (n : Node) : string :=
  match n with
  | NavigableString s | SpecialString _ s => s
  | Tag nm _ cs => PyStr.join (map (strings_below (interesting nm)) cs)
  end.

(** [soup.get_text()] *)
Definition soup_text (soup : Soup) : string :=
  PyStr.join (map (strings_below plain) soup).

(** [Tag.get(attr)]. *)
Definition node_get (n : Node) (attr : string) : option AttrValue :=
  match n with
  | NavigableString _ | SpecialString _ _ => None
  | Tag _ a _ => a !! attr
  end.

Definition node_name (n : Node) : option string :=
  match n with
  | NavigableString _ | SpecialString _ _ => None
  | Tag nm _ _ => Some nm
  end.

(** ** Targets *)

(** One entry of ['tag_identifiers']: [(tag_name, tag_identifier)]. *)
Definition TagRule : Type := string * gmap string string.

(** A target dictionary.  Optional keys are [option]s; [key] is absent from
    a page-load checker. *)
Record Target : Type := mkTarget {
  key : option string;
  tag_identifiers : list TagRule;
  attr : option string;
  nullable : option bool;
  all : option bool;
}.

(** [target['nullable'] = True]. *)
Definition set_nullable (t : Target) : Target :=
  {| key := key t; tag_identifiers := tag_identifiers t; attr := attr t;
     nullable := Some true; all := all t |}.

(** The target with a single tag rule in place of its rule list. *)
Definition only_rule (t : Target) (r : TagRule) : Target :=
  {| key := key t; tag_identifiers := [r]; attr := attr t;
     nullable := nullable t; all := all t |}.

(** [target.get('nullable')] used as a condition. *)
Definition is_nullable (t : Target) : bool :=
  match nullable t with Some b => b | None => false end.

(** ['all' in target.keys()] and [target['all'] is True]. *)
Definition match_all (t : Target) : bool :=
  match all t with Some b => b | None => false end.

(** The call a rule turns into: [find_all]/[find], by id (the tag name is
    dropped) or by tag name and attribute dictionary. *)
Inductive Query : Type :=
| FindAll (name : option string) (attrs : gmap string string)
| Find (name : option string) (attrs : gmap string string).

Definition rule_query (t : Target) (r : TagRule) : Query :=
  let '(tag_name, tag_identifier) := r in
  match tag_identifier !! "id" with
  | Some i =>
      if match_all t then FindAll None {[ "id" := i ]} else Find None {[ "id" := i ]}
  | None =>
      if match_all t then FindAll (Some tag_name) tag_identifier
      else Find (Some tag_name) tag_identifier
  end.

Section Resolver.

(** BeautifulSoup's element filter, which is not part of the repository:
    [strainer name attrs nm at] tells whether a tag named [nm] with
    attributes [at] is selected by [find_all(name, attrs)] ([name = None]
    when only keyword filters are given).  It looks at the tag's name and
    attributes only. *)
Variable strainer :
  option string -> gmap string string -> string -> gmap string AttrValue -> bool.

Definition selects (name : option string) (attrs : gmap string string) (n : Node) : bool :=
  match n with
  | NavigableString _ | SpecialString _ _ => false
  | Tag nm a _ => strainer name attrs nm a
  end.

(** [soup.find_all(name, attrs)]: every selected tag, in document order. *)
Definition find_all (soup : Soup) (name : option string) (attrs : gmap string string)
  : list Node :=
  List.filter (selects name attrs) (descendants soup).

(** [soup.find(name, attrs)]: the first selected tag, or [None]. *)
Definition find (soup : Soup) (name : option string) (attrs : gmap string string)
  : option Node :=
  head (find_all soup name attrs).

(** The value bound to [tag] by one rule: the result set of [find_all], or
    the one-element list [[soup.find(...)]], whose element may be [None]. *)
Definition run_query (soup : Soup) (q : Query) : list (option Node) :=
  match q with
  | FindAll name attrs => map Some (find_all soup name attrs)
  | Find name attrs => [find soup name attrs]
  end.

(** [if tag:] on a list. *)
Definition nonempty {A} (l : list A) : bool :=
  match l with [] => false | _ :: _ => true end.

(** The [for ... in target['tag_identifiers']] loop.  [tag] is the loop
    variable's current binding ([None] while unbound); the second
    component records the queries issued, in order. *)
Fixpoint for_rules (t : Target) (soup : Soup) (rules : list TagRule)
    (tag : option (list (option Node))) (issued : list Query)
  : option (list (option Node)) * list Query :=
  match rules with
  | [] => (tag, issued)
  | r :: rules' =>
      let q := rule_query t r in
      let tag' := run_query soup q in
      if nonempty tag' then (Some tag', issued ++ [q])
      else for_rules t soup rules' (Some tag') (issued ++ [q])
  end.

(** [get_attr(tag, attr, nullable)].  [t.get(attr)] is [None] for a missing
    attribute and a list for a multi-valued one; neither has [strip]. *)
Definition get_attr (tag : list (option Node)) (a : string) (nullable : bool)
  : outcome pyval :=
  if nullable && negb (nonempty tag) then Returns (PStr "")
  else
    obind (comprehension
             (fun t : option Node =>
                match t with
                | None => Raises (AttributeError "get")
                | Some n =>
                    match node_get n a with
                    | Some (AttrStr v) => Returns (PyStr.strip v)
                    | Some (AttrList _) | None => Raises (AttributeError "strip")
                    end
                end) tag)
          (fun l => Returns (PList l)).

(** [get_text(tag, nullable)] *)
Definition get_text (tag : list (option Node)) (nullable : bool) : outcome pyval :=
  if nullable && negb (nonempty tag) then Returns (PStr "")
  else
    obind (comprehension
             (fun t : option Node =>
                match t with
                | None => Raises (AttributeError "get_text")
                | Some n => Returns (PyStr.strip (node_text n))
                end) tag)
          (fun l => Returns (PList l)).

(** The tail of [get_target]: [if 'attr' in target: ... else: ...]. *)
Definition extract (t : Target) (tag : list (option Node)) : outcome pyval :=
  let nullable := is_nullable t in
  match attr t with
  | Some a => get_attr tag a nullable
  | None => get_text tag nullable
  end.

(** [get_target(target, soup)], with the queries it issued.  With an empty
    ['tag_identifiers'] the name [tag] is never bound. *)
Definition get_target_traced (t : Target) (soup : Soup) : outcome pyval * list Query :=
  let '(tag, issued) := for_rules t soup (tag_identifiers t) None [] in
  (match tag with
   | None => Raises (UnboundLocalError "tag")
   | Some tag => extract t tag
   end, issued).

Definition get_target (t : Target) (soup : Soup) : outcome pyval :=
  fst (get_target_traced t soup).

Definition queries_issued (t : Target) (soup : Soup) : list Query :=
  snd (get_target_traced t soup).

(** The tags a rule selects in a document, whichever of [find] and
    [find_all] its target uses. *)
Definition matched (t : Target) (soup : Soup) (r : TagRule) : list Node :=
  match rule_query t r with
  | FindAll name attrs | Find name attrs => find_all soup name attrs
  end.

End Resolver.

(** ** Removing script and style tags *)

(** The names passed to [self.soup(["script", "style"])]. *)
Definition useless (nm : string) : bool :=
  String.eqb nm "script" || String.eqb nm "style".

(** The tree left once every tag found by [self.soup(["script", "style"])]
    has been [decompose()]d: such a tag disappears with everything below
    it, wherever it sits. *)
Fixpoint decompose_in (n : Node) : list Node :=
  match n with
  | NavigableString _ | SpecialString _ _ => [n]
  | Tag nm a cs =>
      if useless nm then []
      else [Tag nm a ((fix go (l : list Node) : list Node :=
                         match l with
                         | [] => []
                         | c :: l' => decompose_in c ++ go l'
                         end) cs)]
  end.

Definition remove_useless (soup : Soup) : Soup := flat_map decompose_in soup.

(** The strings below a node accepted by [keep] that do not sit in a
    script or style tag. *)
Fixpoint visible_strings (keep : option StringClass -> bool) (n : Node) : string :=
  match n with
  | NavigableString s => if keep None then s else EmptyString
  | SpecialString c s => if keep (Some c) then s else EmptyString
  | Tag nm _ cs =>
      if useless nm then EmptyString
      else (fix go (l : list Node) : string :=
              match l with
              | [] => EmptyString
              | c :: l' => String.append (visible_strings keep c) (go l')
              end) cs
  end.

(** The text of the document outside its script and style tags. *)
Definition visible_text (n : Node) : string := visible_strings plain n.

(** No tag of the document is a script or style tag. *)
Definition script_free (soup : Soup) : Prop :=
  Forall (fun n => forall nm, node_name n = Some nm -> useless nm = false)
         (descendants soup).

(** ** The scrapper object and the outside world *)

Inductive Mode : Type := STATIC | DYNAMIC | SOUP.

(** A selenium session handle: the markup [driver.page_source] exposes,
    given the URLs navigated to so far and the number of earlier reads. *)
Record WebDriver : Type := mkDriver {
  page_source : list string -> nat -> string;
}.

(** The attributes set by [__init__].  Python passes dictionaries by
    reference: [shared_checker] lists the positions of [targets] that hold
    the very dictionary that is [page_load_checker], so that what is
    written into the one shows in the other. *)
Record ContentWebScrapper : Type := mkScrapper {
  url : option string;
  mode : Mode;
  page_load_checker : option Target;
  targets : list Target;
  extra_functions : list (string * (Soup -> outcome pyval));
  driver : option WebDriver;
  soup : option Soup;
  shared_checker : list nat;
}.

(** What the scrapper did to its collaborators: URLs passed to
    [driver.get], reads of [driver.page_source], seconds spent in
    [time.sleep], URLs passed to [requests.get]. *)
Record World : Type := mkWorld {
  visited : list string;
  reads : nat;
  slept : nat;
  fetched : list string;
}.

Definition State : Type := ContentWebScrapper * World.

(** A method body: it may raise, it updates [self] and the world, and a
    loop that has not finished within its fuel gives [None]. *)
Definition M (A : Type) : Type := State -> option (outcome A * State).

Definition ret {A} (a : A) : M A := fun s => Some (Returns a, s).
Definition raise {A} (e : exn) : M A := fun s => Some (Raises e, s).
Definition bind {A B} (m : M A) (k : A -> M B) : M B :=
  fun s =>
    match m s with
    | None => None
    | Some (Raises e, s') => Some (Raises e, s')
    | Some (Returns a, s') => k a s'
    end.
Definition lift {A} (o : outcome A) : M A := fun s => Some (o, s).
Definition self {A} (f : ContentWebScrapper -> A) : M A := fun s => Some (Returns (f (fst s)), s).
Definition update_self (f : ContentWebScrapper -> ContentWebScrapper) : M unit :=
  fun s => Some (Returns tt, (f (fst s), snd s)).
Definition world {A} (f : World -> A) : M A := fun s => Some (Returns (f (snd s)), s).
Definition update_world (f : World -> World) : M unit :=
  fun s => Some (Returns tt, (fst s, f (snd s))).
Definition out_of_fuel {A} : M A := fun _ => None.

Notation "x <- c ;; k" := (bind c (fun x => k))
  (at level 100, c at next level, right associativity).
Notation "c ;;; k" := (bind c (fun _ => k))
  (at level 100, right associativity).

Definition set_page_load_checker (c : option Target) (o : ContentWebScrapper) :=
  {| url := url o; mode := mode o; page_load_checker := c; targets := targets o;
     extra_functions := extra_functions o; driver := driver o; soup := soup o;
     shared_checker := shared_checker o |}.

Definition set_soup (d : option Soup) (o : ContentWebScrapper) :=
  {| url := url o; mode := mode o; page_load_checker := page_load_checker o;
     targets := targets o; extra_functions := extra_functions o;
     driver := driver o; soup := d; shared_checker := shared_checker o |}.

Definition set_driver (d : option WebDriver) (o : ContentWebScrapper) :=
  {| url := url o; mode := mode o; page_load_checker := page_load_checker o;
     targets := targets o; extra_functions := extra_functions o;
     driver := d; soup := soup o; shared_checker := shared_checker o |}.

(** The targets once the checker's dictionary reads [c]: the entries from
    position [i] on that are this dictionary read [c] as well. *)
Fixpoint write_shared (shared : list nat) (c : Target) (i : nat) (ts : list Target)
  : list Target :=
  match ts with
  | [] => []
  | t :: ts' =>
      (if existsb (Nat.eqb i) shared then c else t) :: write_shared shared c (S i) ts'
  end.

(** A write into the checker's dictionary, after which it reads [c]: seen
    through [page_load_checker] and through the targets that share it. *)
Definition write_checker (c : Target) (o : ContentWebScrapper) :=
  {| url := url o; mode := mode o; page_load_checker := Some c;
     targets := write_shared (shared_checker o) c 0 (targets o);
     extra_functions := extra_functions o; driver := driver o; soup := soup o;
     shared_checker := shared_checker o |}.

(** [time.sleep(one_tick)] with [one_tick = 1]. *)
Definition sleep_one_tick : M unit :=
  update_world (fun w => {| visited := visited w; reads := reads w;
                            slept := S (slept w); fetched := fetched w |}).

(** [self.driver.page_source] *)
Definition read_page_source : M string :=
  d <- self driver ;;
  match d with
  | None => raise (AttributeError "page_source")
  | Some d =>
      w <- world id ;;
      update_world (fun w => {| visited := visited w; reads := S (reads w);
                                slept := slept w; fetched := fetched w |}) ;;;
      ret (page_source d (visited w) (reads w))
  end.

(** The world once the session has navigated to [u]. *)
Definition navigate (u : string) (w : World) : World :=
  {| visited := visited w ++ [u]; reads := reads w;
     slept := slept w; fetched := fetched w |}.

(** [self.driver.get(url)] *)
Definition driver_get (u : string) : M unit :=
  d <- self driver ;;
  match d with
  | None => raise (AttributeError "get")
  | Some _ => update_world (navigate u)
  end.

(** The outcome is a [ValueError], the exception [run] raises for an input
    it rejects. *)
Definition is_invalid_input {A} (r : option (outcome A * State)) : bool :=
  match r with
  | Some (Raises (ValueError _), _) => true
  | _ => false
  end.

Section Scrapper.

Variable strainer :
  option string -> gmap string string -> string -> gmap string AttrValue -> bool.

(** [BeautifulSoup(html, 'lxml')]: the parser, outside the repository. *)
Variable BeautifulSoup : string -> Soup.

(** [requests.get(url).content.decode('utf-8')]: the static fetch, outside
    the repository; it returns the body or raises. *)
Variable requests_get : string -> outcome string.

(** The [while not found and max_delay:] loop of [check_page_loaded]. *)
Fixpoint poll (fuel : nat) (found : bool) (max_delay : Z) : M bool :=
  if negb found && negb (max_delay =? 0) then
    match fuel with
    | O => out_of_fuel
    | S fuel' =>
        sleep_one_tick ;;;
        html <- read_page_source ;;
        let soup := BeautifulSoup html in
        c <- self page_load_checker ;;
        match c with
        | None => raise TypeError
        | Some c =>
            confirmation_tag <- lift (get_target strainer c soup) ;;
            poll fuel' (if truthy confirmation_tag then true else found)
                 (max_delay - 1)
        end
    end
  else ret found.

(** [check_page_loaded(max_delay)].  The flag is written into the
    checker's dictionary in place. *)
Definition check_page_loaded (fuel : nat) (max_delay : Z) : M bool :=
  c <- self page_load_checker ;;
  match c with
  | None => raise TypeError
  | Some c =>
      update_self (write_checker (set_nullable c)) ;;;
      poll fuel false max_delay
  end.

Definition default_max_delay : Z := 30.

(** The [for target in self.targets] loop filling [result]. *)
Fixpoint resolve_targets (d : Soup) (ts : list Target) (result : gmap string pyval)
  : outcome (gmap string pyval) :=
  match ts with
  | [] => Returns result
  | t :: ts' =>
      obind (get_target strainer t d) (fun v =>
      match key t with
      | None => Raises (KeyError "key")
      | Some k => resolve_targets d ts' (<[ k := v ]> result)
      end)
  end.

(** The [for key, function in self.extra_functions] loop. *)
Fixpoint call_extra_functions (d : Soup) (fs : list (string * (Soup -> outcome pyval)))
    (result : gmap string pyval) : outcome (gmap string pyval) :=
  match fs with
  | [] => Returns result
  | (k, function) :: fs' =>
      obind (function d) (fun v => call_extra_functions d fs' (<[ k := v ]> result))
  end.

(** The mode dispatch of [run]: it leaves the document in [self.soup].
    In dynamic mode a missing driver is not rejected: one is constructed
    and stored; [construct] is the outcome of the call that constructs
    it. *)
Definition obtain_soup_with (construct : outcome WebDriver) (u : string) : M unit :=
  m <- self mode ;;
  match m with
  | DYNAMIC =>
      d <- self driver ;;
      match d with
      | None => d' <- lift construct ;; update_self (set_driver (Some d'))
      | Some _ => ret tt
      end ;;;
      driver_get u ;;;
      c <- self page_load_checker ;;
      match c with
      | Some _ => _ <- check_page_loaded 30 default_max_delay ;; ret tt
      | None => ret tt
      end ;;;
      html <- read_page_source ;;
      update_self (set_soup (Some (BeautifulSoup html)))
  | STATIC =>
      update_world (fun w => {| visited := visited w; reads := reads w;
                                slept := slept w; fetched := fetched w ++ [u] |}) ;;;
      html <- lift (requests_get u) ;;
      update_self (set_soup (Some (BeautifulSoup html)))
  | SOUP =>
      d <- self soup ;;
      match d with
      | None => raise (ValueError "soup cannot be empty")
      | Some _ => ret tt
      end
  end.

(** The call [init_selenium_driver()] as [run] writes it, by the bare
    name: the function is a static method of the class and no name of the
    module, so that the call raises [NameError]. *)
Definition init_selenium_driver : outcome WebDriver :=
  Raises (NameError "init_selenium_driver").

Definition obtain_soup (u : string) : M unit :=
  obtain_soup_with init_selenium_driver u.

(** Everything [run] does once [self.soup] holds the document: remove the
    script and style tags in place, then resolve. *)
Definition strip_and_resolve : M (gmap string pyval) :=
  d <- self soup ;;
  match d with
  | None => raise TypeError
  | Some d =>
      let d' := remove_useless d in
      update_self (set_soup (Some d')) ;;;
      ts <- self targets ;;
      result <- lift (resolve_targets d' ts ∅) ;;
      fs <- self extra_functions ;;
      lift (call_extra_functions d' fs result)
  end.

(** [run()], for a given outcome of the driver construction. *)
Definition run_with (construct : outcome WebDriver) : M (gmap string pyval) :=
  u <- self url ;;
  match u with
  | None => raise (ValueError "url cannot be empty")
  | Some u =>
      obtain_soup_with construct u ;;;
      strip_and_resolve
  end.

(** [run()] *)
Definition run : M (gmap string pyval) := run_with init_selenium_driver.

(** What [run] returns for a document: the targets resolved in order, then
    the extra functions called in order, each filling its key. *)
Definition resolve (d : Soup) (o : ContentWebScrapper) : outcome (gmap string pyval) :=
  obind (resolve_targets d (targets o) ∅)
        (fun result => call_extra_functions d (extra_functions o) result).

(** The world after [n] rounds of the polling loop: [n] seconds slept and
    [n] reads of the page source. *)
Definition ticks (n : nat) (w : World) : World :=
  {| visited := visited w; reads := (reads w + n)%nat;
     slept := (slept w + n)%nat; fetched := fetched w |}.

(** The document the loop parses in its round [i] (from 0), started in
    world [w]. *)
Definition polled (d : WebDriver) (w : World) (i : nat) : Soup :=
  BeautifulSoup (page_source d (visited w) (reads w + i)%nat).

(** Some rule of the checker selects an element of the document. *)
Definition marker_present (c : Target) (doc : Soup) : bool :=
  existsb (fun r => nonempty (matched strainer c doc r)) (tag_identifiers c).

End Scrapper.

(** ** Concrete collaborators, to run the model *)

Module Demo.

(** A requested value against an attribute: the string itself, or one of
    the values of a multi-valued attribute. *)
Definition value_matches (v : string) (x : AttrValue) : bool :=
  match x with
  | AttrStr s => String.eqb s v
  | AttrList l => existsb (String.eqb v) l
  end.

(** A tag filter in the manner of BeautifulSoup: the name, when given, is
    the tag's, and every requested attribute is present with the requested
    value. *)
Definition exact_strainer (name : option string) (wanted : gmap string string)
    (nm : string) (a : gmap string AttrValue) : bool :=
  match name with None => true | Some n => String.eqb n nm end
  && forallb (fun kv : string * string =>
                match a !! fst kv with
                | Some x => value_matches (snd kv) x
                | None => false
                end) (map_to_list wanted).

Definition div_x : Node :=
  Tag "div" {[ "id" := AttrStr "x" ]} [NavigableString " hello "].

(** [<script>ignored()</script><div id="x"> hello </div>] *)
Definition page_ready : Soup :=
  [Tag "html" ∅
     [Tag "body" ∅ [Tag "script" ∅ [SpecialString Script "ignored()"]; div_x]]].

Definition rule_x : TagRule := ("", {[ "id" := "x" ]}).
Definition rule_p : TagRule := ("p", {[ "class" := "a" ]}).
Definition rule_div : TagRule := ("div", {[ "id" := "x" ]}).
Definition rule_span : TagRule := ("span", {[ "class" := "none" ]}).

(** [<p>loading</p>] *)
Definition page_loading : Soup :=
  [Tag "html" ∅ [Tag "body" ∅ [Tag "p" ∅ [NavigableString "loading"]]]].

(** A parser that knows two pages. *)
Definition parse (html : string) : Soup :=
  if String.eqb html "ready" then page_ready else page_loading.

(** A session whose page is ready from the third read on. *)
Definition driver_ready_on_third : WebDriver :=
  {| page_source := fun _ n => if (n <? 2)%nat then "loading" else "ready" |}.

(** A session whose page never gets ready. *)
Definition driver_never_ready : WebDriver :=
  {| page_source := fun _ _ => "loading" |}.

Definition no_requests (u : string) : outcome string :=
  Raises (ExternalError "offline").

Definition fresh_world : World :=
  {| visited := []; reads := 0; slept := 0; fetched := [] |}.

(** [{'key': 'greeting', 'tag_identifiers': [('', {'id': 'x'})]}] *)
Definition greeting : Target :=
  {| key := Some "greeting"; tag_identifiers := [("", {[ "id" := "x" ]})];
     attr := None; nullable := None; all := None |}.

(** [{'key': 'greeting', 'tag_identifiers': [('p', {'class': 'a'}),
    ('div', {'id': 'x'})], 'nullable': True}] *)
Definition greeting_fallback : Target :=
  {| key := Some "greeting";
     tag_identifiers := [("p", {[ "class" := "a" ]}); ("div", {[ "id" := "x" ]})];
     attr := None; nullable := Some true; all := None |}.

(** The same with ['all': True]. *)
Definition greeting_fallback_all : Target :=
  {| key := Some "greeting";
     tag_identifiers := [("p", {[ "class" := "a" ]}); ("div", {[ "id" := "x" ]})];
     attr := None; nullable := Some true; all := Some true |}.

(** [{'key': 'missing', 'tag_identifiers': [('span', {'class': 'none'})],
    'nullable': nullable, 'all': all}] *)
Definition missing (nullable all : option bool) : Target :=
  {| key := Some "missing"; tag_identifiers := [("span", {[ "class" := "none" ]})];
     attr := None; nullable := nullable; all := all |}.

(** A page-load checker as in the docstring of [check_page_loaded]:
    [{'tag_identifiers': [('div', {'id': 'x'})]}], no ['all']. *)
Definition checker_first : Target :=
  {| key := None; tag_identifiers := [("div", {[ "id" := "x" ]})];
     attr := None; nullable := None; all := None |}.

(** The same checker, with ['nullable': False] supplied by the caller. *)
Definition checker_first_required : Target :=
  {| key := None; tag_identifiers := [("div", {[ "id" := "x" ]})];
     attr := None; nullable := Some false; all := None |}.

(** The same checker with ['all': True] and ['nullable': False]. *)
Definition checker_all : Target :=
  {| key := None; tag_identifiers := [("div", {[ "id" := "x" ]})];
     attr := None; nullable := Some false; all := Some true |}.

(** [{'key': 'status', 'tag_identifiers': [('p', {})]}] *)
Definition status : Target :=
  {| key := Some "status"; tag_identifiers := [("p", ∅)];
     attr := None; nullable := None; all := None |}.

(** [{'key': 'code', 'tag_identifiers': [('script', {})], 'nullable': True,
    'all': True}] *)
Definition code : Target :=
  {| key := Some "code"; tag_identifiers := [("script", ∅)];
     attr := None; nullable := Some true; all := Some true |}.

Definition scrapper (m : Mode) (u : option string) (c : option Target)
    (ts : list Target) (d : option WebDriver) (doc : option Soup)
  : ContentWebScrapper :=
  {| url := u; mode := m; page_load_checker := c; targets := ts;
     extra_functions := [("text", fun d => Returns (PStr (soup_text d)))];
     driver := d; soup := doc; shared_checker := [] |}.

Definition example_url : string := "http://example.test/".

(** A scrapper in dynamic mode, waiting on checker [c] with driver [d]. *)
Definition dynamic (c : Target) (d : WebDriver) : ContentWebScrapper :=
  scrapper DYNAMIC (Some example_url) (Some c) [status] (Some d) None.

(** A scrapper in SOUP mode, fed [page_ready]. *)
Definition given (u : option string) : ContentWebScrapper :=
  scrapper SOUP u None [greeting; code] None (Some page_ready).

(** [<style>p { }</style>] in the head, and the body of [page_ready]. *)
Definition page_styled : Soup :=
  [Tag "html" ∅
     [Tag "head" ∅ [Tag "style" ∅ [SpecialString Stylesheet "p { }"]];
      Tag "body" ∅ [Tag "script" ∅ [SpecialString Script "ignored()"]; div_x]]].

(** [{'key': 'sheet', 'tag_identifiers': [('style', {})], 'nullable': True,
    'all': True}] *)
Definition sheet : Target :=
  {| key := Some "sheet"; tag_identifiers := [("style", ∅)];
     attr := None; nullable := Some true; all := Some true |}.

(** A scrapper in SOUP mode, fed [page_styled]. *)
Definition given_styled : ContentWebScrapper :=
  scrapper SOUP (Some example_url) None [greeting; code; sheet] None (Some page_styled).

(** [{'key': 'marker', 'tag_identifiers': [('div', {'id': 'x'})],
    'all': True}], not nullable. *)
Definition marker : Target :=
  {| key := Some "marker"; tag_identifiers := [("div", {[ "id" := "x" ]})];
     attr := None; nullable := None; all := Some true |}.

(** A scrapper in dynamic mode whose page-load checker is the dictionary
    [marker], which is also its first target. *)
Definition dynamic_shared (d : WebDriver) : ContentWebScrapper :=
  {| url := Some example_url; mode := DYNAMIC; page_load_checker := Some marker;
     targets := [marker; status]; extra_functions := []; driver := Some d;
     soup := None; shared_checker := [0%nat] |}.

End Demo.

(** ** Variations of a target, and tags compared by name and attributes *)

(** The target with ['nullable'] set to [b], or absent. *)
Definition with_nullable (b : option bool) (t : Target) : Target :=
  {| key := key t; tag_identifiers := tag_identifiers t; attr := attr t;
     nullable := b; all := all t |}.

(** The target with another rule list. *)
Definition with_rules (rules : list TagRule) (t : Target) : Target :=
  {| key := key t; tag_identifiers := rules; attr := attr t;
     nullable := nullable t; all := all t |}.

(** What a filter sees of a node: its name and attributes. *)
Definition tag_head (n : Node) : option (string * gmap string AttrValue) :=
  match n with
  | NavigableString _ | SpecialString _ _ => None
  | Tag nm a _ => Some (nm, a)
  end.

(** The tag carries the attribute, as a single string. *)
Definition has_text_attr (a : string) (n : Node) : Prop :=
  exists v, node_get n a = Some (AttrStr v).

(** [t.get(attr).strip()] on a tag that has the attribute as a string. *)
Definition stripped_attr (a : string) (n : Node) : string :=
  match node_get n a with
  | Some (AttrStr v) => PyStr.strip v
  | Some (AttrList _) | None => EmptyString
  end.

(** ** sample.py *)

Module Sample.

Definition base_url : string := "https://1xstavka.ru/line/Football/".

(** The one target of [main]: every [a] tag of class [c-events__liga],
    its [href], nullable. *)
Definition link_ligas : Target :=
  {| key := Some "link_ligas";
     tag_identifiers := [("a", {[ "class" := "c-events__liga" ]})];
     attr := Some "href"; nullable := Some true; all := Some true |}.

(** [ContentWebScrapper(driver=driver, mode=Mode.DYNAMIC, url=base_url,
    targets=targets)]; the other parameters keep their default [None]. *)
Definition betscrapper (d : WebDriver) : ContentWebScrapper :=
  {| url := Some base_url; mode := DYNAMIC; page_load_checker := None;
     targets := [link_ligas]; extra_functions := []; driver := Some d;
     soup := None; shared_checker := [] |}.

(** [main()], given the driver that [init_selenium_driver] hands back:
    the outcome of [betscrapper.run()], which is what gets printed, and
    the world afterwards. *)
Definition main
    (strainer : option string -> gmap string string -> string -> gmap string AttrValue -> bool)
    (BeautifulSoup : string -> Soup) (requests_get : string -> outcome string)
    (d : WebDriver) (w : World) : option (outcome (gmap string pyval) * World) :=
  match run strainer BeautifulSoup requests_get (betscrapper d, w) with
  | Some (results, s) => Some (results, snd s)
  | None => None
  end.

End Sample.

(** A page for [Sample.main], with a parser and a session that show it:
    two links of the class looked for, one other link and a script. *)
Module SampleDemo.

Definition liga (href : string) (name : string) : Node :=
  Tag "a" {[ "class" := AttrList ["c-events__liga"]; "href" := AttrStr href ]}
      [NavigableString name].

Definition page_football : Soup :=
  [Tag "html" ∅
     [Tag "body" ∅
        [Tag "script" ∅ [SpecialString Script "track()"];
         liga " line/Football/1-England " "England";
         Tag "a" {[ "class" := AttrList ["menu"] ]} [NavigableString "Live"];
         liga "line/Football/2-Spain" "Spain"]]].

Definition parse (html : string) : Soup :=
  if String.eqb html "football" then page_football else [].

Definition rule_liga : TagRule := ("a", {[ "class" := "c-events__liga" ]}).

(** The names of the leagues: all of them, by text, after a rule that
    finds nothing. *)
Definition liga_names : Target :=
  {| key := Some "names"; tag_identifiers := [Demo.rule_p; rule_liga];
     attr := None; nullable := None; all := Some true |}.

(** An attribute the links do not have. *)
Definition liga_titles : Target :=
  {| key := Some "titles"; tag_identifiers := [rule_liga];
     attr := Some "title"; nullable := Some true; all := Some true |}.

(** The first league only. *)
Definition first_liga : Target :=
  {| key := Some "first"; tag_identifiers := [rule_liga];
     attr := Some "href"; nullable := None; all := None |}.

(** A target filed under the key of [Demo.scrapper]'s extra function. *)
Definition text_target : Target :=
  {| key := Some "text"; tag_identifiers := [Demo.rule_x];
     attr := None; nullable := None; all := None |}.

(** A fetch that always succeeds, with the markup of [Demo.page_ready]. *)
Definition fetch_ready (u : string) : outcome string := Returns "ready".

Definition driver_football : WebDriver :=
  {| page_source := fun visited _ =>
       match visited with
       | [] => EmptyString
       | _ :: _ => "football"
       end |}.

End SampleDemo.

(** * Properties *)

Ltac by_evaluation := vm_compute; reflexivity.

(** ** Induction on documents *)

Lemma Node_nested_ind (P : Node -> Prop) :
  (forall s, P (NavigableString s)) ->
  (forall c s, P (SpecialString c s)) ->
  (forall nm a cs, Forall P cs -> P (Tag nm a cs)) ->
  forall n, P n.
Proof.
  intros Htext Hspecial Htag.
  fix IH 1.
  intros [s | c s | nm a cs].
  - apply Htext.
  - apply Hspecial.
  - apply Htag.
    induction cs as [| c cs IHcs].
    + constructor.
    + constructor; [apply IH | exact IHcs].
Qed.

(** ** The rule loop *)

Section ResolverFacts.

Variable strainer :
  option string -> gmap string string -> string -> gmap string AttrValue -> bool.

Lemma rule_query_first t r :
  match_all t = false ->
  exists name attrs, rule_query t r = Find name attrs.
Proof.
  intros Hall. destruct r as [tag_name tag_identifier]. unfold rule_query.
  rewrite Hall. destruct (tag_identifier !! "id"); eauto.
Qed.

Lemma rule_query_all t r :
  match_all t = true ->
  exists name attrs, rule_query t r = FindAll name attrs.
Proof.
  intros Hall. destruct r as [tag_name tag_identifier]. unfold rule_query.
  rewrite Hall. destruct (tag_identifier !! "id"); eauto.
Qed.

(** Without ['all': True] the binding of [tag] is a one-element list, which
    is truthy whatever it holds. *)
Lemma run_query_first t soup r :
  match_all t = false ->
  run_query strainer soup (rule_query t r) = [head (matched strainer t soup r)].
Proof.
  intros Hall. unfold matched.
  destruct (rule_query_first t r Hall) as (name & attrs & ->). reflexivity.
Qed.

Lemma run_query_all t soup r :
  match_all t = true ->
  run_query strainer soup (rule_query t r) = map Some (matched strainer t soup r).
Proof.
  intros Hall. unfold matched.
  destruct (rule_query_all t r Hall) as (name & attrs & ->). reflexivity.
Qed.

(** Hence, without ['all': True], the loop ends in its first round. *)
Lemma for_rules_first t soup r rs tag issued :
  match_all t = false ->
  for_rules strainer t soup (r :: rs) tag issued
  = (Some [head (matched strainer t soup r)], issued ++ [rule_query t r]).
Proof.
  intros Hall. cbn [for_rules]. rewrite (run_query_first _ _ _ Hall). reflexivity.
Qed.

Lemma get_target_traced_first t soup r rs :
  match_all t = false ->
  tag_identifiers t = r :: rs ->
  get_target_traced strainer t soup
  = (extract t [head (matched strainer t soup r)], [rule_query t r]).
Proof.
  intros Hall Hrules. unfold get_target_traced.
  rewrite Hrules, (for_rules_first _ _ _ _ _ _ Hall). reflexivity.
Qed.

(** With ['all': True], rules selecting nothing are passed over. *)
Lemma for_rules_all_skip t soup pre rest tag issued :
  match_all t = true ->
  Forall (fun r => matched strainer t soup r = []) pre ->
  for_rules strainer t soup (pre ++ rest) tag issued
  = for_rules strainer t soup rest
      (match pre with [] => tag | _ :: _ => Some [] end)
      (issued ++ map (rule_query t) pre).
Proof.
  intros Hall Hpre. revert tag issued.
  induction Hpre as [| r pre Hr Hpre IH]; intros tag issued.
  - cbn. now rewrite app_nil_r.
  - cbn [app for_rules]. rewrite (run_query_all _ _ _ Hall), Hr. cbn [map nonempty].
    rewrite IH. cbn [map]. rewrite <- app_assoc. cbn [app].
    destruct pre; reflexivity.
Qed.

Lemma for_rules_all_hit t soup r rest tag issued :
  match_all t = true ->
  matched strainer t soup r <> [] ->
  for_rules strainer t soup (r :: rest) tag issued
  = (Some (map Some (matched strainer t soup r)), issued ++ [rule_query t r]).
Proof.
  intros Hall Hr. cbn [for_rules]. rewrite (run_query_all _ _ _ Hall).
  destruct (matched strainer t soup r); [congruence | reflexivity].
Qed.

(** A rule that binds a truthy [tag] ends the loop: no later rule is
    queried, with or without ['all': True]. *)
Lemma for_rules_break t soup r rest tag issued :
  nonempty (run_query strainer soup (rule_query t r)) = true ->
  for_rules strainer t soup (r :: rest) tag issued
  = (Some (run_query strainer soup (rule_query t r)), issued ++ [rule_query t r]).
Proof.
  intros Hr. cbn [for_rules]. now rewrite Hr.
Qed.

Lemma comprehension_some {A B} (f : A -> B) (g : option A -> outcome B) l :
  (forall a, g (Some a) = Returns (f a)) ->
  comprehension g (map Some l) = Returns (map f l).
Proof.
  intros Hg. induction l as [| a l IH]; cbn; [reflexivity |].
  now rewrite Hg, IH.
Qed.

(** Text extraction from a non-empty result set. *)
Lemma get_text_found (ns : list Node) nullable :
  ns <> [] ->
  get_text (map Some ns) nullable
  = Returns (PList (map (fun n => PyStr.strip (node_text n)) ns)).
Proof.
  intros Hne. unfold get_text.
  destruct ns as [| n ns]; [congruence |].
  cbn [map nonempty negb]. rewrite andb_false_r.
  change (Some n :: map Some ns) with (map Some (n :: ns)).
  rewrite (comprehension_some (fun n => PyStr.strip (node_text n))); reflexivity.
Qed.

End ResolverFacts.

(** ** Resolving one target *)

Section TargetFacts.

Variable strainer :
  option string -> gmap string string -> string -> gmap string AttrValue -> bool.

(** When [find] comes back with [None], the extraction dereferences it:
    the nullable guard sees the non-empty list [[None]]. *)
Lemma extract_none t :
  extract t [None]
  = Raises (AttributeError (match attr t with Some _ => "get" | None => "get_text" end)).
Proof.
  unfold extract, get_attr, get_text. cbn [nonempty negb].
  rewrite andb_false_r. destruct (attr t); reflexivity.
Qed.

Lemma extract_empty t :
  extract t [] = if is_nullable t then Returns (PStr "") else Returns (PList []).
Proof.
  unfold extract, get_attr, get_text. cbn [nonempty negb].
  rewrite andb_true_r. destruct (attr t), (is_nullable t); reflexivity.
Qed.

(** Without ['all': True], a first rule selecting nothing makes
    [get_target] raise, whatever the later rules would select. *)
Lemma get_target_first_absent t soup r rs :
  match_all t = false ->
  tag_identifiers t = r :: rs ->
  matched strainer t soup r = [] ->
  get_target strainer t soup
  = Raises (AttributeError (match attr t with Some _ => "get" | None => "get_text" end)).
Proof.
  intros Hall Hrules Hr. unfold get_target.
  rewrite (get_target_traced_first _ _ _ _ _ Hall Hrules), Hr. cbn [fst head].
  apply extract_none.
Qed.

(** With ['all': True], no rule selecting anything leaves [tag] bound to
    the empty result set of the last rule. *)
Lemma get_target_all_absent t soup :
  match_all t = true ->
  tag_identifiers t <> [] ->
  Forall (fun r => matched strainer t soup r = []) (tag_identifiers t) ->
  get_target strainer t soup
  = if is_nullable t then Returns (PStr "") else Returns (PList []).
Proof.
  intros Hall Hne Hnone. unfold get_target, get_target_traced.
  rewrite <- (app_nil_r (tag_identifiers t)).
  rewrite (for_rules_all_skip _ _ _ _ _ _ _ Hall Hnone). cbn [for_rules fst].
  destruct (tag_identifiers t); [congruence |]. apply extract_empty.
Qed.

(** With ['all': True], the rules fall back in order: a rule selecting
    nothing hands over to the next one, whose result is returned. *)
Lemma get_target_all_fallback t soup ruleA ruleB :
  match_all t = true ->
  tag_identifiers t = [ruleA; ruleB] ->
  matched strainer t soup ruleA = [] ->
  matched strainer t soup ruleB <> [] ->
  get_target strainer t soup = get_target strainer (only_rule t ruleB) soup
  /\ queries_issued strainer t soup = [rule_query t ruleA; rule_query t ruleB].
Proof.
  intros Hall Hrules HA HB. unfold get_target, queries_issued, get_target_traced.
  rewrite Hrules. change [ruleA; ruleB] with ([ruleA] ++ [ruleB]).
  assert (Hpre : Forall (fun r => matched strainer t soup r = []) [ruleA])
    by (repeat constructor; exact HA).
  rewrite (for_rules_all_skip _ _ _ _ _ _ _ Hall Hpre).
  rewrite (for_rules_all_hit _ _ _ _ _ _ _ Hall HB).
  cbn [tag_identifiers only_rule].
  rewrite (for_rules_all_hit _ (only_rule t ruleB) soup ruleB [] None [] Hall HB).
  split; reflexivity.
Qed.

(** Once a rule binds a truthy [tag], the later rules are not queried. *)
Lemma later_rules_not_queried t soup ruleA rest :
  tag_identifiers t = ruleA :: rest ->
  nonempty (run_query strainer soup (rule_query t ruleA)) = true ->
  queries_issued strainer t soup = [rule_query t ruleA]
  /\ get_target strainer t soup
     = extract t (run_query strainer soup (rule_query t ruleA)).
Proof.
  intros Hrules HA. unfold get_target, queries_issued, get_target_traced.
  rewrite Hrules, (for_rules_break _ _ _ _ _ _ _ HA). split; reflexivity.
Qed.

(** C1 (as amended).  For a target without ['all': True] and without
    ['attr'], resolved against a document in which its first tag rule
    selects exactly one element, [get_target] returns a one-element list
    holding that element's stripped text. *)
Theorem get_target_first_text t soup r rs e :
  match_all t = false ->
  attr t = None ->
  tag_identifiers t = r :: rs ->
  matched strainer t soup r = [e] ->
  get_target strainer t soup = Returns (PList [PyStr.strip (node_text e)]).
Proof.
  intros Hall Hattr Hrules Hr. unfold get_target.
  rewrite (get_target_traced_first _ _ _ _ _ Hall Hrules), Hr. cbn [fst head].
  unfold extract. rewrite Hattr. unfold get_text. cbn [nonempty negb].
  now rewrite andb_false_r.
Qed.

(** C2 (as amended).  For a nullable target with ['all': True] and at
    least one tag rule, when no rule selects any element [get_target]
    returns the empty string, and raises nothing. *)
Theorem get_target_nullable_all_absent t soup :
  nullable t = Some true ->
  all t = Some true ->
  tag_identifiers t <> [] ->
  Forall (fun r => matched strainer t soup r = []) (tag_identifiers t) ->
  get_target strainer t soup = Returns (PStr "").
Proof.
  intros Hnull Hall Hne Hnone.
  rewrite get_target_all_absent; try assumption.
  - unfold is_nullable. now rewrite Hnull.
  - unfold match_all. now rewrite Hall.
Qed.

(** C4 (as amended).  For a target that is not nullable, with at least one
    tag rule none of which selects an element, [get_target] signals no
    failure of its own: with ['all': True] it returns the empty list, and
    otherwise the attribute lookup on [None] raises [AttributeError]. *)
Theorem get_target_required_absent t soup :
  is_nullable t = false ->
  tag_identifiers t <> [] ->
  Forall (fun r => matched strainer t soup r = []) (tag_identifiers t) ->
  get_target strainer t soup
  = if match_all t then Returns (PList [])
    else Raises (AttributeError
                   (match attr t with Some _ => "get" | None => "get_text" end)).
Proof.
  intros Hnull Hne Hnone. destruct (match_all t) eqn:Hall.
  - rewrite get_target_all_absent; try assumption. now rewrite Hnull.
  - destruct (tag_identifiers t) as [| r rs] eqn:Hrules; [congruence |].
    apply (get_target_first_absent t soup r rs Hall Hrules).
    now inversion Hnone.
Qed.

End TargetFacts.

(** ** The target theorems on concrete documents *)

Section TargetExamples.

Import Demo.

Lemma get_target_first_text_witness :
  match_all greeting = false /\ attr greeting = None
  /\ tag_identifiers greeting = [("", {[ "id" := "x" ]})]
  /\ matched exact_strainer greeting page_ready ("", {[ "id" := "x" ]}) = [div_x]
  /\ get_target exact_strainer greeting page_ready
     = Returns (PList [PyStr.strip (node_text div_x)]).
Proof.
  do 4 (split; [by_evaluation |]).
  apply (get_target_first_text exact_strainer greeting page_ready
           ("", {[ "id" := "x" ]}) [] div_x); by_evaluation.
Defined.

(** C1 (as stated) fails.  A document with exactly one element selected by
    the target's only rule resolves to the list [["hello"]], not to the
    string ["hello"]; and when the one element is selected by the second
    rule only, the resolution raises. *)
Lemma get_target_single_string_refuted :
  (match_all greeting = false /\ attr greeting = None
   /\ matched exact_strainer greeting page_ready ("", {[ "id" := "x" ]}) = [div_x]
   /\ get_target exact_strainer greeting page_ready = Returns (PList ["hello"])
   /\ get_target exact_strainer greeting page_ready <> Returns (PStr "hello"))
  /\ (match_all greeting_fallback = false /\ attr greeting_fallback = None
      /\ matched exact_strainer greeting_fallback page_ready rule_p = []
      /\ matched exact_strainer greeting_fallback page_ready rule_div = [div_x]
      /\ get_target exact_strainer greeting_fallback page_ready
         = Raises (AttributeError "get_text")).
Proof.
  repeat split; try (vm_compute; reflexivity).
  vm_compute. discriminate.
Qed.

Lemma get_target_nullable_all_absent_witness :
  nullable (missing (Some true) (Some true)) = Some true
  /\ all (missing (Some true) (Some true)) = Some true
  /\ tag_identifiers (missing (Some true) (Some true)) <> []
  /\ Forall (fun r => matched exact_strainer (missing (Some true) (Some true))
                        page_ready r = [])
       (tag_identifiers (missing (Some true) (Some true)))
  /\ get_target exact_strainer (missing (Some true) (Some true)) page_ready
     = Returns (PStr "").
Proof.
  assert (Hnone : Forall (fun r => matched exact_strainer
                            (missing (Some true) (Some true)) page_ready r = [])
                    (tag_identifiers (missing (Some true) (Some true))))
    by (repeat constructor).
  do 2 (split; [reflexivity |]). split; [discriminate |]. split; [exact Hnone |].
  apply (get_target_nullable_all_absent exact_strainer
           (missing (Some true) (Some true)) page_ready);
    [reflexivity | reflexivity | discriminate | exact Hnone].
Defined.

(** C2 (as stated) fails.  A nullable target none of whose rules selects
    an element resolves to the empty string, not to an empty list, when it
    has ['all': True]; without ['all': True] the resolution raises. *)
Lemma get_target_nullable_absent_refuted :
  (matched exact_strainer (missing (Some true) (Some true)) page_ready rule_span = []
   /\ get_target exact_strainer (missing (Some true) (Some true)) page_ready
      = Returns (PStr "")
   /\ get_target exact_strainer (missing (Some true) (Some true)) page_ready
      <> Returns (PList []))
  /\ (matched exact_strainer (missing (Some true) None) page_ready rule_span = []
      /\ get_target exact_strainer (missing (Some true) None) page_ready
         = Raises (AttributeError "get_text")
      /\ get_target exact_strainer (missing (Some true) (Some false)) page_ready
         = Raises (AttributeError "get_text")).
Proof.
  repeat split; try (vm_compute; reflexivity).
  vm_compute. discriminate.
Qed.

Lemma get_target_required_absent_witness :
  is_nullable (missing (Some false) (Some true)) = false
  /\ tag_identifiers (missing (Some false) (Some true)) <> []
  /\ Forall (fun r => matched exact_strainer (missing (Some false) (Some true))
                        page_ready r = [])
       (tag_identifiers (missing (Some false) (Some true)))
  /\ get_target exact_strainer (missing (Some false) (Some true)) page_ready
     = Returns (PList []).
Proof.
  assert (Hnone : Forall (fun r => matched exact_strainer
                            (missing (Some false) (Some true)) page_ready r = [])
                    (tag_identifiers (missing (Some false) (Some true))))
    by (repeat constructor).
  split; [reflexivity |]. split; [discriminate |]. split; [exact Hnone |].
  apply (get_target_required_absent exact_strainer
           (missing (Some false) (Some true)) page_ready);
    [reflexivity | discriminate | exact Hnone].
Defined.

(** C4 (as stated) fails.  A target that is not nullable and selects
    nothing resolves, with ['all': True], to the empty list: no failure is
    signalled at all.  Without ['all': True] what is raised is the
    [AttributeError] of a lookup on [None]. *)
Lemma get_target_required_absent_refuted :
  matched exact_strainer (missing (Some false) (Some true)) page_ready rule_span = []
  /\ get_target exact_strainer (missing (Some false) (Some true)) page_ready
     = Returns (PList [])
  /\ get_target exact_strainer (missing None (Some true)) page_ready
     = Returns (PList [])
  /\ get_target exact_strainer (missing (Some false) None) page_ready
     = Raises (AttributeError "get_text").
Proof.
  repeat split; vm_compute; reflexivity.
Qed.

(** C3 (the code against the claim).  The first rule selects nothing and
    the second selects exactly one element; without ['all': True] the
    second rule is never queried and the resolution raises, where the
    second rule on its own resolves to [["hello"]]. *)
Theorem fallback_without_all_raises :
  tag_identifiers greeting_fallback = [rule_p; rule_div]
  /\ matched exact_strainer greeting_fallback page_ready rule_p = []
  /\ matched exact_strainer greeting_fallback page_ready rule_div = [div_x]
  /\ get_target exact_strainer (only_rule greeting_fallback rule_div) page_ready
     = Returns (PList ["hello"])
  /\ get_target exact_strainer greeting_fallback page_ready
     = Raises (AttributeError "get_text")
  /\ queries_issued exact_strainer greeting_fallback page_ready
     = [Find (Some "p") {[ "class" := "a" ]}].
Proof.
  repeat split; vm_compute; reflexivity.
Qed.

(** With ['all': True] the same target falls back to the second rule. *)
Example fallback_with_all :
  get_target exact_strainer greeting_fallback_all page_ready = Returns (PList ["hello"])
  /\ queries_issued exact_strainer greeting_fallback_all page_ready
     = [FindAll (Some "p") {[ "class" := "a" ]}; FindAll None {[ "id" := "x" ]}].
Proof.
  split; vm_compute; reflexivity.
Qed.

End TargetExamples.

(** ** The polling loop *)

Section PollFacts.

Variable strainer :
  option string -> gmap string string -> string -> gmap string AttrValue -> bool.
Variable BeautifulSoup : string -> Soup.

Local Abbreviation poll' := (poll strainer BeautifulSoup).
Local Abbreviation check_page_loaded' := (check_page_loaded strainer BeautifulSoup).
Local Abbreviation polled' := (polled BeautifulSoup).

(** One round of the loop, spelled out. *)
Lemma poll_round fuel max_delay o w d c :
  max_delay <> 0 ->
  driver o = Some d ->
  page_load_checker o = Some c ->
  poll' (S fuel) false max_delay (o, w)
  = match get_target strainer c (polled' d w 0) with
    | Raises e => Some (Raises e, (o, ticks 1 w))
    | Returns v => poll' fuel (truthy v) (max_delay - 1) (o, ticks 1 w)
    end.
Proof.
  intros Hmd Hd Hc. cbn [poll negb andb].
  apply Z.eqb_neq in Hmd. rewrite Hmd. cbn [negb].
  unfold bind, sleep_one_tick, read_page_source, update_world, self, world, lift,
    raise, ret, bind. cbn [fst snd]. rewrite Hd. cbn [fst snd]. rewrite Hc.
  unfold polled', ticks. cbn [visited reads slept fetched id].
  rewrite !Nat.add_1_r, Nat.add_0_r.
  destruct (get_target strainer c _) as [v | e]; [| reflexivity].
  destruct (truthy v); reflexivity.
Qed.

Lemma poll_done fuel found max_delay s :
  found = true \/ max_delay = 0 ->
  poll' fuel found max_delay s = Some (Returns found, s).
Proof.
  intros H. destruct fuel; cbn [poll];
    (destruct H as [-> | ->]; [reflexivity | now rewrite andb_false_r]).
Qed.

Lemma ticks_ticks n m w : ticks n (ticks m w) = ticks (m + n) w.
Proof. unfold ticks. cbn. now rewrite !Nat.add_assoc. Qed.

Lemma polled_ticks d w i : polled' d (ticks 1 w) i = polled' d w (S i).
Proof.
  unfold polled', ticks. cbn. now rewrite <- Nat.add_assoc.
Qed.

(** The loop gives up: [n] rounds without the marker use up a budget of
    [n] exactly, and the answer is [False]. *)
Lemma poll_gives_up n : forall fuel o w d c,
  driver o = Some d ->
  page_load_checker o = Some c ->
  (forall i, (i < n)%nat ->
     exists v, get_target strainer c (polled' d w i) = Returns v /\ truthy v = false) ->
  (n <= fuel)%nat ->
  poll' fuel false (Z.of_nat n) (o, w) = Some (Returns false, (o, ticks n w)).
Proof.
  induction n as [| n IH]; intros fuel o w d c Hd Hc Hpolls Hfuel.
  - rewrite poll_done by (right; reflexivity).
    unfold ticks. rewrite !Nat.add_0_r. now destruct w.
  - destruct fuel as [| fuel]; [lia |].
    rewrite (poll_round _ _ _ _ d c) by (assumption || lia).
    destruct (Hpolls 0%nat ltac:(lia)) as (v & -> & ->).
    replace (Z.of_nat (S n) - 1) with (Z.of_nat n) by lia.
    rewrite (IH fuel o (ticks 1 w) d c); try assumption; try lia.
    + now rewrite ticks_ticks.
    + intros i Hi. rewrite polled_ticks. apply Hpolls. lia.
Qed.

(** The loop succeeds: when round [k] (from 0) is the first to see the
    marker and the budget allows for it, the answer is [True] after
    [k + 1] rounds. *)
Lemma poll_finds k : forall fuel max_delay o w d c,
  driver o = Some d ->
  page_load_checker o = Some c ->
  (forall i, (i < k)%nat ->
     exists v, get_target strainer c (polled' d w i) = Returns v /\ truthy v = false) ->
  (exists v, get_target strainer c (polled' d w k) = Returns v /\ truthy v = true) ->
  (k < fuel)%nat ->
  Z.of_nat k < max_delay \/ max_delay < 0 ->
  poll' fuel false max_delay (o, w) = Some (Returns true, (o, ticks (S k) w)).
Proof.
  induction k as [| k IH]; intros fuel max_delay o w d c Hd Hc Hbefore Hat Hfuel Hmd;
    (destruct fuel as [| fuel]; [lia |]);
    rewrite (poll_round _ _ _ _ d c) by (assumption || lia).
  - destruct Hat as (v & -> & ->). apply poll_done. now left.
  - destruct (Hbefore 0%nat ltac:(lia)) as (v & -> & ->).
    rewrite (IH fuel (max_delay - 1) o (ticks 1 w) d c); try assumption; try lia.
    + now rewrite ticks_ticks.
    + intros i Hi. rewrite polled_ticks. apply Hbefore. lia.
    + rewrite polled_ticks. exact Hat.
Qed.

(** [check_page_loaded] overwrites the checker's flag before it polls. *)
Lemma check_page_loaded_unfold fuel max_delay o w c :
  page_load_checker o = Some c ->
  check_page_loaded' fuel max_delay (o, w)
  = poll' fuel false max_delay (write_checker (set_nullable c) o, w).
Proof.
  intros Hc. unfold check_page_loaded, bind, self, update_self.
  cbn [fst snd]. now rewrite Hc.
Qed.

(** A checker with ['all': True] and no ['attr'], once nullable, resolves
    to a truthy value exactly when one of its rules selects something. *)
Lemma for_rules_all_marker t doc : forall rules tag issued,
  match_all t = true ->
  exists tag' issued',
    for_rules strainer t doc rules tag issued = (tag', issued')
    /\ (existsb (fun r => nonempty (matched strainer t doc r)) rules = true ->
        exists ns, ns <> [] /\ tag' = Some (map Some ns))
    /\ (existsb (fun r => nonempty (matched strainer t doc r)) rules = false ->
        tag' = match rules with [] => tag | _ :: _ => Some [] end).
Proof.
  induction rules as [| r rules IH]; intros tag issued Hall.
  - exists tag, issued. cbn. split; [reflexivity |]. split; [discriminate | reflexivity].
  - cbn [existsb for_rules]. rewrite (run_query_all _ _ _ _ Hall).
    destruct (matched strainer t doc r) as [| n ns] eqn:Hr.
    + cbn [map nonempty orb].
      destruct (IH (Some []) (issued ++ [rule_query t r]) Hall)
        as (tag' & issued' & -> & Hyes & Hno).
      exists tag', issued'. split; [reflexivity |]. split; [exact Hyes |].
      intros H. rewrite (Hno H). now destruct rules.
    + cbn [map nonempty orb]. eexists _, _. split; [reflexivity |].
      split; [| discriminate].
      intros _. exists (n :: ns). split; [discriminate | reflexivity].
Qed.

Lemma checker_all_truthy c doc :
  match_all c = true ->
  attr c = None ->
  tag_identifiers c <> [] ->
  exists v, get_target strainer (set_nullable c) doc = Returns v
            /\ truthy v = marker_present strainer c doc.
Proof.
  intros Hall Hattr Hne. unfold get_target, get_target_traced, marker_present.
  destruct (for_rules_all_marker (set_nullable c) doc (tag_identifiers c) None [] Hall)
    as (tag' & issued' & Heq & Hyes & Hno).
  change (tag_identifiers (set_nullable c)) with (tag_identifiers c). rewrite Heq.
  change (existsb (fun r => nonempty (matched strainer (set_nullable c) doc r)))
    with (existsb (fun r => nonempty (matched strainer c doc r))) in Hyes, Hno.
  cbn [fst]. destruct (existsb _ (tag_identifiers c)).
  - destruct (Hyes eq_refl) as (ns & Hns & ->).
    unfold extract. change (attr (set_nullable c)) with (attr c). rewrite Hattr.
    rewrite (get_text_found ns _ Hns). eexists. split; [reflexivity |].
    destruct ns; [congruence | reflexivity].
  - rewrite (Hno eq_refl). destruct (tag_identifiers c); [congruence |].
    rewrite extract_empty. eexists. split; reflexivity.
Qed.

(** For such a checker the loop counts as intended: the marker first seen
    in round [k] (from 0), within the budget, gives [True] after [k + 1]
    rounds of one sleep and one read each. *)
Lemma check_page_loaded_all_found k fuel max_delay o w d c :
  driver o = Some d ->
  page_load_checker o = Some c ->
  match_all c = true -> attr c = None -> tag_identifiers c <> [] ->
  (forall i, (i < k)%nat -> marker_present strainer c (polled' d w i) = false) ->
  marker_present strainer c (polled' d w k) = true ->
  (k < fuel)%nat ->
  Z.of_nat k < max_delay \/ max_delay < 0 ->
  check_page_loaded' fuel max_delay (o, w)
  = Some (Returns true,
          (write_checker (set_nullable c) o, ticks (S k) w)).
Proof.
  intros Hd Hc Hall Hattr Hne Hbefore Hat Hfuel Hmd.
  rewrite (check_page_loaded_unfold _ _ _ _ c Hc).
  apply (poll_finds k fuel max_delay _ w d (set_nullable c));
    try assumption; try reflexivity.
  - intros i Hi.
    destruct (checker_all_truthy c (polled' d w i) Hall Hattr Hne) as (v & Hv & Ht).
    exists v. split; [exact Hv |]. rewrite Ht. now apply Hbefore.
  - destruct (checker_all_truthy c (polled' d w k) Hall Hattr Hne) as (v & Hv & Ht).
    exists v. split; [exact Hv |]. now rewrite Ht.
Qed.

(** And [n] rounds without the marker exhaust a budget of [n]: [False]
    after exactly [n] rounds. *)
Lemma check_page_loaded_all_timeout n fuel o w d c :
  driver o = Some d ->
  page_load_checker o = Some c ->
  match_all c = true -> attr c = None -> tag_identifiers c <> [] ->
  (forall i, (i < n)%nat -> marker_present strainer c (polled' d w i) = false) ->
  (n <= fuel)%nat ->
  check_page_loaded' fuel (Z.of_nat n) (o, w)
  = Some (Returns false,
          (write_checker (set_nullable c) o, ticks n w)).
Proof.
  intros Hd Hc Hall Hattr Hne Hnever Hfuel.
  rewrite (check_page_loaded_unfold _ _ _ _ c Hc).
  apply (poll_gives_up n fuel _ w d (set_nullable c));
    try assumption; try reflexivity.
  intros i Hi.
  destruct (checker_all_truthy c (polled' d w i) Hall Hattr Hne) as (v & Hv & Ht).
  exists v. split; [exact Hv |]. rewrite Ht. now apply Hnever.
Qed.

(** Without ['all': True] the first round that does not see the marker
    raises: the flag forced on the checker does not reach the one-element
    list [[None]]. *)
Lemma check_page_loaded_first_absent fuel max_delay o w d c r rs :
  driver o = Some d ->
  page_load_checker o = Some c ->
  match_all c = false ->
  tag_identifiers c = r :: rs ->
  matched strainer c (polled' d w 0) r = [] ->
  max_delay <> 0 ->
  check_page_loaded' (S fuel) max_delay (o, w)
  = Some (Raises (AttributeError
                    (match attr c with Some _ => "get" | None => "get_text" end)),
          (write_checker (set_nullable c) o, ticks 1 w)).
Proof.
  intros Hd Hc Hall Hrules Hr Hmd.
  rewrite (check_page_loaded_unfold _ _ _ _ c Hc).
  rewrite (poll_round _ _ _ _ d (set_nullable c)); try assumption; try reflexivity.
  now rewrite (get_target_first_absent strainer (set_nullable c) _ r rs Hall Hrules Hr).
Qed.

End PollFacts.

(** ** Removing script and style tags *)

Section StripFacts.

Variable strainer :
  option string -> gmap string string -> string -> gmap string AttrValue -> bool.

Lemma tags_of_tag nm a cs : tags_of (Tag nm a cs) = Tag nm a cs :: descendants cs.
Proof. reflexivity. Qed.

Lemma decompose_in_tag nm a cs :
  decompose_in (Tag nm a cs)
  = if useless nm then [] else [Tag nm a (remove_useless cs)].
Proof. reflexivity. Qed.

Lemma strings_below_tag keep nm a cs :
  strings_below keep (Tag nm a cs) = PyStr.join (map (strings_below keep) cs).
Proof.
  cbn [strings_below].
  induction cs as [| c cs IH]; cbn [map PyStr.join]; [reflexivity | now rewrite IH].
Qed.

Lemma visible_strings_tag keep nm a cs :
  visible_strings keep (Tag nm a cs)
  = if useless nm then EmptyString else PyStr.join (map (visible_strings keep) cs).
Proof.
  cbn [visible_strings]. destruct (useless nm); [reflexivity |].
  induction cs as [| c cs IH]; cbn [map PyStr.join]; [reflexivity | now rewrite IH].
Qed.

Lemma append_assoc (s1 s2 s3 : string) :
  String.append (String.append s1 s2) s3 = String.append s1 (String.append s2 s3).
Proof.
  induction s1 as [| c s1 IH]; [reflexivity |].
  change (String c (String.append (String.append s1 s2) s3)
          = String c (String.append s1 (String.append s2 s3))).
  now rewrite IH.
Qed.

Lemma append_empty_r (s : string) : String.append s EmptyString = s.
Proof.
  induction s as [| c s IH]; [reflexivity |].
  change (String c (String.append s EmptyString) = String c s).
  now rewrite IH.
Qed.

Lemma join_app l1 l2 :
  PyStr.join (l1 ++ l2) = String.append (PyStr.join l1) (PyStr.join l2).
Proof.
  induction l1 as [| s l1 IH]; cbn [app PyStr.join]; [reflexivity |].
  now rewrite IH, append_assoc.
Qed.

(** After the removal no script or style tag is left, at any depth. *)
Lemma decompose_in_clean n :
  Forall (fun n => forall nm, node_name n = Some nm -> useless nm = false)
         (descendants (decompose_in n)).
Proof.
  induction n as [s | k s | nm a cs IH] using Node_nested_ind.
  - constructor.
  - constructor.
  - rewrite decompose_in_tag. destruct (useless nm) eqn:Hnm; [constructor |].
    unfold descendants. cbn [flat_map]. rewrite app_nil_r, tags_of_tag.
    constructor.
    + intros nm' [= <-]. exact Hnm.
    + unfold remove_useless, descendants.
      induction IH as [| c cs Hc _ IHcs]; [constructor |].
      cbn [flat_map]. rewrite flat_map_app. apply Forall_app. split; assumption.
Qed.

Lemma remove_useless_script_free d : script_free (remove_useless d).
Proof.
  unfold script_free, remove_useless, descendants.
  induction d as [| n d IH]; [constructor |].
  cbn [flat_map]. rewrite flat_map_app. apply Forall_app. split; [| exact IH].
  apply decompose_in_clean.
Qed.

(** So nothing [find_all] returns from the document is such a tag, *)
Lemma find_all_script_free d name attrs :
  script_free d ->
  Forall (fun n => forall nm, node_name n = Some nm -> useless nm = false)
         (find_all strainer d name attrs).
Proof.
  unfold script_free, find_all. intros H.
  induction H as [| n l Hn _ IH]; [constructor |].
  cbn [List.filter]. destruct (selects strainer name attrs n); [constructor |]; assumption.
Qed.

(** and a filter that selects script and style tags only finds nothing. *)
Lemma find_all_useless_only d name attrs :
  script_free d ->
  (forall nm a, strainer name attrs nm a = true -> useless nm = true) ->
  find_all strainer d name attrs = [].
Proof.
  unfold script_free, find_all. intros H Hsel.
  induction H as [| n l Hn _ IH]; [reflexivity |].
  cbn [List.filter]. destruct n as [s | k s | nm a cs]; cbn [selects];
    [exact IH | exact IH |].
  destruct (strainer name attrs nm a) eqn:Hs; [| exact IH].
  specialize (Hsel nm a Hs). rewrite (Hn nm eq_refl) in Hsel. discriminate.
Qed.

(** The text of what is left is the text that was outside such tags. *)
Lemma decompose_in_strings keep n :
  PyStr.join (map (strings_below keep) (decompose_in n)) = visible_strings keep n.
Proof.
  induction n as [s | k s | nm a cs IH] using Node_nested_ind.
  - cbn. apply append_empty_r.
  - cbn. apply append_empty_r.
  - rewrite decompose_in_tag, visible_strings_tag.
    destruct (useless nm); [reflexivity |].
    cbn [map PyStr.join]. rewrite append_empty_r, strings_below_tag.
    unfold remove_useless.
    induction IH as [| c cs Hc _ IHcs]; [reflexivity |].
    cbn [flat_map map PyStr.join]. rewrite map_app, join_app. now rewrite Hc, IHcs.
Qed.

Lemma remove_useless_strings keep d :
  PyStr.join (map (strings_below keep) (remove_useless d))
  = PyStr.join (map (visible_strings keep) d).
Proof.
  unfold remove_useless.
  induction d as [| n d IH]; [reflexivity |].
  cbn [flat_map map PyStr.join]. rewrite map_app, join_app.
  now rewrite decompose_in_strings, IH.
Qed.

Lemma remove_useless_text d :
  soup_text (remove_useless d) = PyStr.join (map visible_text d).
Proof. apply remove_useless_strings. Qed.

(** A tag that is neither a script or style tag nor holds one is left as
    it is. *)
Lemma decompose_in_fixed n :
  Forall (fun x => forall nm, node_name x = Some nm -> useless nm = false) (tags_of n) ->
  decompose_in n = [n].
Proof.
  induction n as [s | k s | nm a cs IH] using Node_nested_ind; intros Hfree;
    [reflexivity | reflexivity |].
  rewrite decompose_in_tag. rewrite tags_of_tag in Hfree.
  apply List.Forall_cons_iff in Hfree as [Hnm Hcs].
  rewrite (Hnm nm eq_refl). clear Hnm. do 2 f_equal.
  unfold remove_useless, descendants in *.
  induction IH as [| c cs Hc _ IHcs]; [reflexivity |].
  cbn [flat_map] in *. apply List.Forall_app in Hcs as [Hc' Hcs'].
  now rewrite (Hc Hc'), (IHcs Hcs').
Qed.

Lemma remove_useless_fixed d : script_free d -> remove_useless d = d.
Proof.
  unfold script_free, remove_useless, descendants.
  induction d as [| n d IH]; intros Hfree; [reflexivity |].
  cbn [flat_map] in *. apply List.Forall_app in Hfree as [Hn Hd].
  now rewrite (decompose_in_fixed n Hn), (IH Hd).
Qed.

(** The tags removed are those named [script] or [style]. *)
Lemma useless_spec nm : useless nm = true <-> nm = "script" \/ nm = "style".
Proof.
  unfold useless. rewrite orb_true_iff, !String.eqb_eq. reflexivity.
Qed.

Lemma useless_false nm : useless nm = false <-> nm <> "script" /\ nm <> "style".
Proof.
  rewrite <- not_true_iff_false, useless_spec. tauto.
Qed.

Lemma interesting_kept nm :
  useless nm = false ->
  interesting nm (Some Script) = false /\ interesting nm (Some Stylesheet) = false.
Proof.
  unfold useless, interesting, string_container. intros H.
  apply orb_false_iff in H as [-> ->].
  destruct (String.eqb nm "template"), (String.eqb nm "rt"), (String.eqb nm "rp");
    split; reflexivity.
Qed.

End StripFacts.

(** ** [run] *)

Section RunFacts.

Variable strainer :
  option string -> gmap string string -> string -> gmap string AttrValue -> bool.
Variable BeautifulSoup : string -> Soup.
Variable requests_get : string -> outcome string.

Local Abbreviation poll' := (poll strainer BeautifulSoup).
Local Abbreviation check_page_loaded' := (check_page_loaded strainer BeautifulSoup).
Local Abbreviation obtain_soup' := (obtain_soup strainer BeautifulSoup requests_get).
Local Abbreviation strip_and_resolve' := (strip_and_resolve strainer).
Local Abbreviation run' := (run strainer BeautifulSoup requests_get).
Local Abbreviation resolve' := (resolve strainer).

Ltac unfold_monad :=
  unfold bind, ret, raise, lift, self, world, update_self, update_world,
    out_of_fuel in *; cbn [fst snd] in *.

(** The loop touches nothing of [self], and of the world only the clock
    and the read count. *)
Lemma poll_frame fuel : forall found max_delay s r s',
  poll' fuel found max_delay s = Some (r, s') ->
  fst s' = fst s
  /\ visited (snd s') = visited (snd s)
  /\ fetched (snd s') = fetched (snd s).
Proof.
  induction fuel as [| fuel IH]; intros found max_delay [o w] r s' H;
    cbn [poll] in H;
    destruct (negb found && negb (max_delay =? 0)).
  - discriminate.
  - injection H as <- <-. auto.
  - unfold sleep_one_tick, read_page_source in H. unfold_monad.
    destruct (driver o) as [d |]; [| injection H as <- <-; auto].
    cbn [fst snd visited reads slept fetched] in H.
    destruct (page_load_checker o) as [c |]; [| injection H as <- <-; auto].
    destruct (get_target strainer c _) as [v | e]; [| injection H as <- <-; auto].
    apply IH in H. exact H.
  - injection H as <- <-. auto.
Qed.

(** A budget of at most [fuel] seconds is always used up within [fuel]
    rounds: the loop returns or raises. *)
Lemma poll_total fuel : forall found max_delay s,
  0 <= max_delay <= Z.of_nat fuel ->
  exists r, poll' fuel found max_delay s = Some r.
Proof.
  induction fuel as [| fuel IH]; intros found max_delay [o w] Hmd;
    cbn [poll]; destruct (negb found && negb (max_delay =? 0)) eqn:Hgo;
    try (eexists; reflexivity).
  - apply andb_true_iff in Hgo as [_ Hgo]. apply negb_true_iff, Z.eqb_neq in Hgo. lia.
  - apply andb_true_iff in Hgo as [_ Hgo]. apply negb_true_iff, Z.eqb_neq in Hgo.
    unfold sleep_one_tick, read_page_source. unfold_monad.
    destruct (driver o) as [d |]; [| eexists; reflexivity].
    cbn [fst snd]. destruct (page_load_checker o) as [c |]; [| eexists; reflexivity].
    destruct (get_target strainer c _) as [v | e]; [| eexists; reflexivity].
    apply IH. lia.
Qed.

Lemma check_page_loaded_frame fuel max_delay o w c r s' :
  page_load_checker o = Some c ->
  check_page_loaded' fuel max_delay (o, w) = Some (r, s') ->
  fst s' = write_checker (set_nullable c) o
  /\ visited (snd s') = visited w
  /\ fetched (snd s') = fetched w.
Proof.
  intros Hc H. rewrite (check_page_loaded_unfold _ _ _ _ _ _ c Hc) in H.
  apply poll_frame in H. exact H.
Qed.

(** Whatever the caller put under ['nullable'], the checker has
    ['nullable': True] from the first statement of [check_page_loaded] on:
    every outcome of the call leaves it so, the rest of it untouched. *)
Lemma check_page_loaded_forces_nullable fuel max_delay o w c r s' :
  page_load_checker o = Some c ->
  check_page_loaded' fuel max_delay (o, w) = Some (r, s') ->
  exists c', page_load_checker (fst s') = Some c'
             /\ nullable c' = Some true
             /\ tag_identifiers c' = tag_identifiers c
             /\ attr c' = attr c /\ all c' = all c.
Proof.
  intros Hc H.
  destruct (check_page_loaded_frame _ _ _ _ _ _ _ Hc H) as (-> & _ & _).
  exists (set_nullable c). repeat split.
Qed.

Lemma check_page_loaded_total o w :
  exists r, check_page_loaded' 30 default_max_delay (o, w) = Some r.
Proof.
  unfold check_page_loaded. unfold_monad.
  destruct (page_load_checker o) as [c |]; [| eexists; reflexivity].
  apply poll_total. unfold default_max_delay. lia.
Qed.

(** [strip_and_resolve], spelled out. *)
Lemma strip_and_resolve_some o w d :
  soup o = Some d ->
  strip_and_resolve' (o, w)
  = Some (resolve' (remove_useless d) o, (set_soup (Some (remove_useless d)) o, w)).
Proof.
  intros Hd. unfold strip_and_resolve, resolve. unfold_monad.
  rewrite Hd. cbn [fst snd set_soup targets extra_functions].
  destruct (resolve_targets strainer (remove_useless d) (targets o) ∅); reflexivity.
Qed.

Lemma run_unfold o w u :
  url o = Some u ->
  run' (o, w)
  = match obtain_soup' u (o, w) with
    | None => None
    | Some (Raises e, s1) => Some (Raises e, s1)
    | Some (Returns _, s1) => strip_and_resolve' s1
    end.
Proof.
  intros Hu. unfold run, run_with. fold obtain_soup'. unfold_monad. now rewrite Hu.
Qed.

Lemma resolve_ext d o o' :
  targets o' = targets o ->
  extra_functions o' = extra_functions o ->
  resolve' d o' = resolve' d o.
Proof. intros Ht Hf. unfold resolve. now rewrite Ht, Hf. Qed.

(** The dispatch of [run], mode by mode. *)
Lemma obtain_soup_static u o w :
  mode o = STATIC ->
  obtain_soup' u (o, w)
  = let w' := {| visited := visited w; reads := reads w; slept := slept w;
                 fetched := fetched w ++ [u] |} in
    match requests_get u with
    | Returns html => Some (Returns tt, (set_soup (Some (BeautifulSoup html)) o, w'))
    | Raises e => Some (Raises e, (o, w'))
    end.
Proof.
  intros Hmode. unfold obtain_soup, obtain_soup_with, init_selenium_driver. unfold_monad. rewrite Hmode. cbn [fst snd].
  destruct (requests_get u); reflexivity.
Qed.

Lemma obtain_soup_given u o w :
  mode o = SOUP ->
  obtain_soup' u (o, w)
  = match soup o with
    | Some _ => Some (Returns tt, (o, w))
    | None => Some (Raises (ValueError "soup cannot be empty"), (o, w))
    end.
Proof.
  intros Hmode. unfold obtain_soup, obtain_soup_with, init_selenium_driver. unfold_monad. rewrite Hmode. cbn [fst snd].
  destruct (soup o); reflexivity.
Qed.

Lemma obtain_soup_no_driver u o w :
  mode o = DYNAMIC ->
  driver o = None ->
  obtain_soup' u (o, w) = Some (Raises (NameError "init_selenium_driver"), (o, w)).
Proof.
  intros Hmode Hd. unfold obtain_soup, obtain_soup_with, init_selenium_driver. unfold_monad.
  repeat (progress (cbn [fst snd]; rewrite ?Hmode, ?Hd)). reflexivity.
Qed.

Lemma obtain_soup_no_checker u o w d :
  mode o = DYNAMIC ->
  driver o = Some d ->
  page_load_checker o = None ->
  obtain_soup' u (o, w)
  = Some (Returns tt,
          (set_soup (Some (BeautifulSoup (page_source d (visited w ++ [u]) (reads w)))) o,
           {| visited := visited w ++ [u]; reads := S (reads w);
              slept := slept w; fetched := fetched w |})).
Proof.
  intros Hmode Hd Hc. unfold obtain_soup, obtain_soup_with, driver_get, read_page_source. unfold_monad.
  repeat (progress (cbn [fst snd]; rewrite ?Hmode, ?Hd, ?Hc)). reflexivity.
Qed.

Lemma obtain_soup_checker u o w d c :
  mode o = DYNAMIC ->
  driver o = Some d ->
  page_load_checker o = Some c ->
  obtain_soup' u (o, w)
  = match check_page_loaded' 30 default_max_delay (o, navigate u w) with
    | None => None
    | Some (Raises e, s1) => Some (Raises e, s1)
    | Some (Returns _, s1) =>
        Some (Returns tt,
              (set_soup (Some (BeautifulSoup
                                 (page_source d (visited w ++ [u]) (reads (snd s1)))))
                        (write_checker (set_nullable c) o),
               {| visited := visited w ++ [u]; reads := S (reads (snd s1));
                  slept := slept (snd s1); fetched := fetched w |}))
    end.
Proof.
  intros Hmode Hd Hc. unfold obtain_soup, obtain_soup_with, driver_get, read_page_source. unfold_monad.
  repeat (progress (cbn [fst snd]; rewrite ?Hmode, ?Hd, ?Hc)).
  destruct (check_page_loaded' 30 default_max_delay (o, navigate u w))
    as [[[found | e] [o1 w1]] |] eqn:Hload; [| reflexivity | reflexivity].
  destruct (check_page_loaded_frame _ _ _ _ _ _ _ Hc Hload) as (Ho1 & Hv & Hf).
  cbn [fst snd navigate visited fetched] in *. subst o1.
  cbn [driver write_checker]. rewrite Hd. cbn [fst snd id]. now rewrite Hv, Hf.
Qed.

(** Whatever the mode, a dispatch that does not raise leaves a document
    in [self.soup]. *)
Lemma obtain_soup_returns u o w s1 :
  obtain_soup' u (o, w) = Some (Returns tt, s1) ->
  exists d, soup (fst s1) = Some d.
Proof.
  destruct (mode o) eqn:Hmode.
  - rewrite (obtain_soup_static _ _ _ Hmode). cbv zeta.
    destruct (requests_get u) as [html | e]; [| discriminate].
    intros [= <-]. cbn. eauto.
  - destruct (driver o) as [d |] eqn:Hd;
      [| rewrite (obtain_soup_no_driver _ _ _ Hmode Hd); discriminate].
    destruct (page_load_checker o) as [c |] eqn:Hc.
    + rewrite (obtain_soup_checker _ _ _ _ _ Hmode Hd Hc).
      destruct (check_page_loaded' 30 default_max_delay (o, navigate u w))
        as [[[found | e] s2] |]; [| discriminate | discriminate].
      intros [= <-]. cbn. eauto.
    + rewrite (obtain_soup_no_checker _ _ _ _ Hmode Hd Hc).
      intros [= <-]. cbn. eauto.
  - rewrite (obtain_soup_given _ _ _ Hmode).
    destruct (soup o) as [d |] eqn:Hd; [| discriminate].
    intros [= <-]. cbn. eauto.
Qed.

Lemma obtain_soup_total u o w : exists r, obtain_soup' u (o, w) = Some r.
Proof.
  destruct (mode o) eqn:Hmode.
  - rewrite (obtain_soup_static _ _ _ Hmode). cbv zeta.
    destruct (requests_get u); eexists; reflexivity.
  - destruct (driver o) as [d |] eqn:Hd;
      [| rewrite (obtain_soup_no_driver _ _ _ Hmode Hd); eexists; reflexivity].
    destruct (page_load_checker o) as [c |] eqn:Hc.
    + rewrite (obtain_soup_checker _ _ _ _ _ Hmode Hd Hc).
      destruct (check_page_loaded_total o (navigate u w)) as [[[found | e] s2] ->];
        eexists; reflexivity.
    + rewrite (obtain_soup_no_checker _ _ _ _ Hmode Hd Hc). eexists; reflexivity.
  - rewrite (obtain_soup_given _ _ _ Hmode). destruct (soup o); eexists; reflexivity.
Qed.

(** [run] always comes back: it returns or raises. *)
Lemma run_total s : exists r, run' s = Some r.
Proof.
  destruct s as [o w].
  destruct (url o) as [u |] eqn:Hu.
  - rewrite (run_unfold _ _ u Hu).
    destruct (obtain_soup_total u o w) as [[[[] | e] [o1 w1]] Hobtain]; rewrite Hobtain;
      [| eexists; reflexivity].
    destruct (obtain_soup_returns _ _ _ _ Hobtain) as (d & Hd).
    cbn [fst] in Hd. rewrite (strip_and_resolve_some _ _ d Hd). eexists; reflexivity.
  - unfold run, run_with. fold obtain_soup'. unfold_monad. rewrite Hu. eexists; reflexivity.
Qed.

(** The dynamic branch with a session handle: navigate once, wait for the
    checker if there is one and drop its answer, read the page source and
    resolve against it. *)
Lemma run_after_load_check o w u d c found s1 :
  mode o = DYNAMIC ->
  url o = Some u ->
  driver o = Some d ->
  page_load_checker o = Some c ->
  check_page_loaded' 30 default_max_delay (o, navigate u w) = Some (Returns found, s1) ->
  let doc := remove_useless
               (BeautifulSoup (page_source d (visited w ++ [u]) (reads (snd s1)))) in
  run' (o, w)
  = Some (resolve' doc (write_checker (set_nullable c) o),
          (set_soup (Some doc) (write_checker (set_nullable c) o),
           {| visited := visited w ++ [u]; reads := S (reads (snd s1));
              slept := slept (snd s1); fetched := fetched w |})).
Proof.
  intros Hmode Hu Hd Hc Hload doc.
  rewrite (run_unfold _ _ u Hu), (obtain_soup_checker _ _ _ _ _ Hmode Hd Hc), Hload.
  erewrite strip_and_resolve_some by reflexivity. reflexivity.
Qed.

(** C6.  In dynamic mode, when [check_page_loaded] has used up its budget
    and answered [False], [run] neither raises for it nor starts over: it
    has navigated once, reads the page source the session exposes at that
    point, and resolves the targets against that document.  The targets
    are read as [check_page_loaded] left them: one that is the checker's
    own dictionary is nullable by then. *)
Theorem run_ignores_load_timeout o w u d c s1 :
  mode o = DYNAMIC ->
  url o = Some u ->
  driver o = Some d ->
  page_load_checker o = Some c ->
  check_page_loaded strainer BeautifulSoup 30 default_max_delay (o, navigate u w)
  = Some (Returns false, s1) ->
  let doc := remove_useless
               (BeautifulSoup (page_source d (visited w ++ [u]) (reads (snd s1)))) in
  run strainer BeautifulSoup requests_get (o, w)
  = Some (resolve strainer doc (write_checker (set_nullable c) o),
          (set_soup (Some doc) (write_checker (set_nullable c) o),
           {| visited := visited w ++ [u]; reads := S (reads (snd s1));
              slept := slept (snd s1); fetched := fetched w |})).
Proof.
  intros Hmode Hu Hd Hc Hload.
  exact (run_after_load_check o w u d c false s1 Hmode Hu Hd Hc Hload).
Qed.

(** C7.  Whatever the mode, once [run] holds a document it removes the
    tags named [script] and [style] from it and only then resolves: the
    targets and the extra functions all receive the document without
    those tags.  In that document no tag is named [script] or [style], at
    any depth; a filter for such tags finds nothing; no tag left collects
    the strings of a script or a style sheet as its text; the text is the
    text that was outside such tags; and a document that had no such tag
    is resolved as it is. *)
Theorem run_resolves_stripped_document o w u s1 :
  url o = Some u ->
  obtain_soup strainer BeautifulSoup requests_get u (o, w) = Some (Returns tt, s1) ->
  exists d,
    soup (fst s1) = Some d
    /\ run strainer BeautifulSoup requests_get (o, w)
       = Some (resolve strainer (remove_useless d) (fst s1),
               (set_soup (Some (remove_useless d)) (fst s1), snd s1))
    /\ (forall nm a cs,
          In (Tag nm a cs) (descendants (remove_useless d)) ->
          nm <> "script" /\ nm <> "style"
          /\ interesting nm (Some Script) = false
          /\ interesting nm (Some Stylesheet) = false)
    /\ (forall name attrs,
          (forall nm a, strainer name attrs nm a = true ->
                        nm = "script" \/ nm = "style") ->
          find_all strainer (remove_useless d) name attrs = [])
    /\ ((forall nm a cs, In (Tag nm a cs) (descendants d) ->
                         nm <> "script" /\ nm <> "style") ->
        remove_useless d = d)
    /\ soup_text (remove_useless d) = PyStr.join (map visible_text d).
Proof.
  intros Hu Hobtain.
  destruct (obtain_soup_returns _ _ _ _ Hobtain) as (d & Hd).
  exists d. split; [exact Hd |]. split.
  { rewrite (run_unfold _ _ u Hu), Hobtain. destruct s1 as [o1 w1]. cbn [fst snd] in *.
    now rewrite (strip_and_resolve_some _ _ d Hd). }
  pose proof (remove_useless_script_free d) as Hfree.
  split; [| split; [| split]].
  - intros nm a cs Hin. unfold script_free in Hfree.
    rewrite List.Forall_forall in Hfree.
    pose proof (Hfree _ Hin nm eq_refl) as Hnm.
    destruct (proj1 (useless_false nm) Hnm) as [H1 H2].
    destruct (interesting_kept nm Hnm) as [H3 H4]. auto.
  - intros name attrs Hsel. apply find_all_useless_only; [exact Hfree |].
    intros nm a Hs. apply useless_spec. now apply (Hsel nm a).
  - intros Hnone. apply remove_useless_fixed. unfold script_free.
    apply List.Forall_forall. intros [s | k s | nm a cs] Hin nm' [= <-].
    apply useless_false. exact (Hnone nm a cs Hin).
  - apply remove_useless_text.
Qed.

(** A dispatch that raises ends [run] there: nothing is resolved. *)
Lemma run_obtain_raises o w u e s1 :
  url o = Some u ->
  obtain_soup' u (o, w) = Some (Raises e, s1) ->
  run' (o, w) = Some (Raises e, s1).
Proof. intros Hu Hobtain. now rewrite (run_unfold _ _ u Hu), Hobtain. Qed.

(** C9 (as amended).  In dynamic mode with a URL and no session handle,
    [run] raises no [ValueError]: it has no check for a missing driver.
    It takes the branch that constructs one: whatever that construction
    comes to, [run] goes on with the driver it returns, stored in
    [self.driver], exactly as if the caller had supplied it, and an
    exception of the construction is the exception of [run]. *)
Theorem run_dynamic_without_driver o w u :
  mode o = DYNAMIC ->
  url o = Some u ->
  driver o = None ->
  is_invalid_input (run strainer BeautifulSoup requests_get (o, w)) = false
  /\ forall construct,
       run_with strainer BeautifulSoup requests_get construct (o, w)
       = match construct with
         | Returns d =>
             run_with strainer BeautifulSoup requests_get construct
               (set_driver (Some d) o, w)
         | Raises e => Some (Raises e, (o, w))
         end.
Proof.
  intros Hmode Hu Hd.
  assert (Hwith : forall construct,
             run_with strainer BeautifulSoup requests_get construct (o, w)
             = match construct with
               | Returns d =>
                   run_with strainer BeautifulSoup requests_get construct
                     (set_driver (Some d) o, w)
               | Raises e => Some (Raises e, (o, w))
               end).
  { intros construct. unfold run_with, obtain_soup_with. unfold_monad.
    destruct construct as [d | e];
      repeat (progress (cbn [fst snd url mode driver set_driver];
                        rewrite ?Hu, ?Hmode, ?Hd));
      reflexivity. }
  split; [| exact Hwith].
  unfold run. now rewrite (Hwith init_selenium_driver).
Qed.

(** C10.  Without a URL [run] raises [ValueError('url cannot be empty')]
    before it looks at the mode: so also in SOUP mode with a document at
    hand, and then nothing is fetched, stripped or resolved. *)
Theorem run_without_url o w :
  url o = None ->
  run strainer BeautifulSoup requests_get (o, w)
  = Some (Raises (ValueError "url cannot be empty"), (o, w)).
Proof.
  intros Hu. unfold run, run_with. fold obtain_soup'. unfold_monad. now rewrite Hu.
Qed.

End RunFacts.

(** ** The polling loop and [run] on concrete sessions *)

Section ScrapperExamples.

Import Demo.

Local Abbreviation check_demo := (check_page_loaded exact_strainer parse).
Local Abbreviation run_demo := (run exact_strainer parse no_requests).

(** What [check_page_loaded] leaves behind after [n] rounds. *)
Local Abbreviation polled_state c d n :=
  (set_page_load_checker (Some (set_nullable c)) (dynamic c d), ticks n fresh_world).

(** With ['all': True] on the checker the loop counts its rounds: the
    marker seen on the third read within a budget of 5 gives [True] after
    three rounds, no marker within a budget of 2 gives [False] after two. *)
Lemma check_page_loaded_all_counts fuel :
  (5 <= fuel)%nat ->
  check_demo fuel 5 (dynamic checker_all driver_ready_on_third, fresh_world)
  = Some (Returns true, polled_state checker_all driver_ready_on_third 3%nat)
  /\ check_demo fuel 2 (dynamic checker_all driver_never_ready, fresh_world)
     = Some (Returns false, polled_state checker_all driver_never_ready 2%nat).
Proof.
  intros Hfuel. split.
  - apply (check_page_loaded_all_found exact_strainer parse 2 fuel 5
             (dynamic checker_all driver_ready_on_third) fresh_world
             driver_ready_on_third checker_all);
      try reflexivity; try discriminate; try lia.
    intros i Hi. destruct i as [| [| i]]; [reflexivity | reflexivity | lia].
  - apply (check_page_loaded_all_timeout exact_strainer parse 2 fuel
             (dynamic checker_all driver_never_ready) fresh_world
             driver_never_ready checker_all);
      try reflexivity; try discriminate; try lia.
Qed.

(** C5 (the code against the claim).  The checker is the one of the
    docstring, without ['all']; the session shows the marker from its
    third read on and the budget is 5.  The first round, which does not
    see the marker, raises: the loop never reaches its third round.  The
    same happens with a session that never shows the marker and a budget
    of 2, where [False] after two rounds was expected. *)
Theorem check_page_loaded_raises_in_first_round fuel :
  marker_present exact_strainer checker_first
    (polled parse driver_ready_on_third fresh_world 0) = false
  /\ marker_present exact_strainer checker_first
       (polled parse driver_ready_on_third fresh_world 1) = false
  /\ marker_present exact_strainer checker_first
       (polled parse driver_ready_on_third fresh_world 2) = true
  /\ check_demo (S fuel) 5 (dynamic checker_first driver_ready_on_third, fresh_world)
     = Some (Raises (AttributeError "get_text"),
             polled_state checker_first driver_ready_on_third 1%nat)
  /\ check_demo (S fuel) 2 (dynamic checker_first driver_never_ready, fresh_world)
     = Some (Raises (AttributeError "get_text"),
             polled_state checker_first driver_never_ready 1%nat).
Proof.
  do 3 (split; [by_evaluation |]). split.
  - apply (check_page_loaded_first_absent exact_strainer parse fuel 5
             (dynamic checker_first driver_ready_on_third) fresh_world
             driver_ready_on_third checker_first rule_div []);
      try reflexivity; discriminate.
  - apply (check_page_loaded_first_absent exact_strainer parse fuel 2
             (dynamic checker_first driver_never_ready) fresh_world
             driver_never_ready checker_first rule_div []);
      try reflexivity; discriminate.
Qed.

(** C8 (the code against the claim).  The caller's checker says
    ['nullable': False] and has no ['all'].  [check_page_loaded] does set
    the flag, and still the first round in which the marker is absent
    raises. *)
Theorem forced_nullable_still_raises fuel :
  nullable checker_first_required = Some false
  /\ marker_present exact_strainer checker_first_required
       (polled parse driver_never_ready fresh_world 0) = false
  /\ check_demo (S fuel) 5 (dynamic checker_first_required driver_never_ready, fresh_world)
     = Some (Raises (AttributeError "get_text"),
             polled_state checker_first_required driver_never_ready 1%nat)
  /\ (page_load_checker
        (fst (polled_state checker_first_required driver_never_ready 1%nat)))
     = Some (set_nullable checker_first_required)
  /\ nullable (set_nullable checker_first_required) = Some true.
Proof.
  split; [reflexivity |]. split; [by_evaluation |]. split; [| split; reflexivity].
  apply (check_page_loaded_first_absent exact_strainer parse fuel 5
             (dynamic checker_first_required driver_never_ready) fresh_world
             driver_never_ready checker_first_required rule_div []);
    try reflexivity; discriminate.
Qed.

Lemma run_ignores_load_timeout_witness :
  mode (dynamic_shared driver_never_ready) = DYNAMIC
  /\ url (dynamic_shared driver_never_ready) = Some example_url
  /\ driver (dynamic_shared driver_never_ready) = Some driver_never_ready
  /\ page_load_checker (dynamic_shared driver_never_ready) = Some marker
  /\ check_demo 30 default_max_delay
       (dynamic_shared driver_never_ready, navigate example_url fresh_world)
     = Some (Returns false,
             (write_checker (set_nullable marker) (dynamic_shared driver_never_ready),
              ticks 30 (navigate example_url fresh_world)))
  /\ run_demo (dynamic_shared driver_never_ready, fresh_world)
     = Some (Returns {[ "marker" := PStr ""; "status" := PList ["loading"] ]},
             (set_soup (Some page_loading)
                (write_checker (set_nullable marker) (dynamic_shared driver_never_ready)),
              {| visited := [example_url]; reads := 31; slept := 30; fetched := [] |})).
Proof.
  do 4 (split; [reflexivity |]).
  assert (Hload : check_demo 30 default_max_delay
            (dynamic_shared driver_never_ready, navigate example_url fresh_world)
          = Some (Returns false,
                  (write_checker (set_nullable marker)
                     (dynamic_shared driver_never_ready),
                   ticks 30 (navigate example_url fresh_world))))
    by by_evaluation.
  split; [exact Hload |].
  etransitivity.
  - exact (run_ignores_load_timeout exact_strainer parse no_requests
             (dynamic_shared driver_never_ready) fresh_world example_url
             driver_never_ready marker _ eq_refl eq_refl eq_refl eq_refl Hload).
  - by_evaluation.
Defined.

(** The dictionary [marker] is not nullable when handed over, and on its
    own resolves to the empty list on the page that never gets ready; as
    the checker's dictionary it has been made nullable by the time [run]
    resolves it, to the empty string. *)
Example shared_checker_is_nullable_in_run :
  get_target exact_strainer marker page_loading = Returns (PList [])
  /\ targets (write_checker (set_nullable marker) (dynamic_shared driver_never_ready))
     = [set_nullable marker; status]
  /\ get_target exact_strainer (set_nullable marker) page_loading = Returns (PStr "").
Proof. repeat split; by_evaluation. Qed.

Lemma run_resolves_stripped_document_witness :
  url given_styled = Some example_url
  /\ obtain_soup exact_strainer parse no_requests example_url (given_styled, fresh_world)
     = Some (Returns tt, (given_styled, fresh_world))
  /\ exists d,
       soup given_styled = Some d
       /\ run_demo (given_styled, fresh_world)
          = Some (resolve exact_strainer (remove_useless d) given_styled,
                  (set_soup (Some (remove_useless d)) given_styled, fresh_world))
       /\ (forall nm a cs,
             In (Tag nm a cs) (descendants (remove_useless d)) ->
             nm <> "script" /\ nm <> "style"
             /\ interesting nm (Some Script) = false
             /\ interesting nm (Some Stylesheet) = false)
       /\ (forall name attrs,
             (forall nm a, exact_strainer name attrs nm a = true ->
                           nm = "script" \/ nm = "style") ->
             find_all exact_strainer (remove_useless d) name attrs = [])
       /\ ((forall nm a cs, In (Tag nm a cs) (descendants d) ->
                            nm <> "script" /\ nm <> "style") ->
           remove_useless d = d)
       /\ soup_text (remove_useless d) = PyStr.join (map visible_text d).
Proof.
  split; [reflexivity |]. split; [reflexivity |].
  exact (run_resolves_stripped_document exact_strainer parse no_requests
           given_styled fresh_world example_url (given_styled, fresh_world)
           eq_refl eq_refl).
Defined.

(** Both kinds of tag are in [page_styled] before the removal and gone
    after it: the targets [code] and [sheet] resolve to the empty string
    in [run], and the text handed to the extra function has lost the
    script and the style sheet. *)
Example run_on_page_with_script_and_style :
  get_target exact_strainer code page_styled = Returns (PList ["ignored()"])
  /\ get_target exact_strainer sheet page_styled = Returns (PList ["p { }"])
  /\ remove_useless page_styled
     = [Tag "html" ∅ [Tag "head" ∅ []; Tag "body" ∅ [div_x]]]
  /\ run_demo (given_styled, fresh_world)
     = Some (Returns {[ "greeting" := PList ["hello"]; "code" := PStr "";
                        "sheet" := PStr ""; "text" := PStr " hello " ]},
             (set_soup (Some (remove_useless page_styled)) given_styled, fresh_world)).
Proof.
  repeat split; by_evaluation.
Qed.

(** The script of [page_ready] is found before the removal and not after:
    the target [code] resolves to the empty string in [run], and the text
    handed to the extra function has lost ["ignored()"]. *)
Example run_on_page_with_script :
  get_target exact_strainer code page_ready = Returns (PList ["ignored()"])
  /\ get_target exact_strainer code (remove_useless page_ready) = Returns (PStr "")
  /\ run_demo (given (Some example_url), fresh_world)
     = Some (Returns {[ "greeting" := PList ["hello"]; "code" := PStr "";
                        "text" := PStr " hello " ]},
             (set_soup (Some (remove_useless page_ready)) (given (Some example_url)),
              fresh_world)).
Proof.
  repeat split; by_evaluation.
Qed.

(** A driver construction that succeeds, for comparison. *)
Lemma run_dynamic_without_driver_witness :
  mode (scrapper DYNAMIC (Some example_url) None [status] None None) = DYNAMIC
  /\ url (scrapper DYNAMIC (Some example_url) None [status] None None)
     = Some example_url
  /\ driver (scrapper DYNAMIC (Some example_url) None [status] None None) = None
  /\ (is_invalid_input
        (run_demo (scrapper DYNAMIC (Some example_url) None [status] None None,
                   fresh_world))
      = false
      /\ forall construct,
           run_with exact_strainer parse no_requests construct
             (scrapper DYNAMIC (Some example_url) None [status] None None, fresh_world)
           = match construct with
             | Returns d =>
                 run_with exact_strainer parse no_requests construct
                   (set_driver (Some d)
                      (scrapper DYNAMIC (Some example_url) None [status] None None),
                    fresh_world)
             | Raises e =>
                 Some (Raises e,
                       (scrapper DYNAMIC (Some example_url) None [status] None None,
                        fresh_world))
             end).
Proof.
  do 3 (split; [reflexivity |]).
  exact (run_dynamic_without_driver exact_strainer parse no_requests
           (scrapper DYNAMIC (Some example_url) None [status] None None)
           fresh_world example_url eq_refl eq_refl eq_refl).
Defined.

(** With a construction that hands back [driver_never_ready], [run]
    without a driver does what [run] with that driver does. *)
Example run_with_constructed_driver :
  run_with exact_strainer parse no_requests (Returns driver_never_ready)
    (scrapper DYNAMIC (Some example_url) None [status] None None, fresh_world)
  = Some (Returns {[ "status" := PList ["loading"]; "text" := PStr "loading" ]},
          (set_soup (Some page_loading)
             (scrapper DYNAMIC (Some example_url) None [status]
                (Some driver_never_ready) None),
           {| visited := [example_url]; reads := 1; slept := 0; fetched := [] |})).
Proof. by_evaluation. Qed.

(** C9 (as stated) fails.  In dynamic mode with a URL and no session
    handle, what [run] raises is not the [ValueError] of a rejected input
    but a [NameError]. *)
Lemma run_dynamic_without_driver_not_invalid_input :
  driver (scrapper DYNAMIC (Some example_url) None [greeting] None None) = None
  /\ is_invalid_input
       (run_demo (scrapper DYNAMIC (Some example_url) None [greeting] None None, fresh_world))
     = false
  /\ run_demo (scrapper DYNAMIC (Some example_url) None [greeting] None None, fresh_world)
     = Some (Raises (NameError "init_selenium_driver"),
             (scrapper DYNAMIC (Some example_url) None [greeting] None None,
              fresh_world)).
Proof.
  repeat split; by_evaluation.
Qed.

Lemma run_without_url_witness :
  url (given None) = None
  /\ mode (given None) = SOUP
  /\ soup (given None) = Some page_ready
  /\ run_demo (given None, fresh_world)
     = Some (Raises (ValueError "url cannot be empty"), (given None, fresh_world)).
Proof.
  do 3 (split; [reflexivity |]).
  exact (run_without_url exact_strainer parse no_requests (given None) fresh_world
           eq_refl).
Defined.

End ScrapperExamples.

(** * Further properties of the resolver *)

Section ResolverMore.

Variable strainer :
  option string -> gmap string string -> string -> gmap string AttrValue -> bool.

(** The rule loop with ['all': True]: the rules before the first one that
    selects something are queried and passed over, the ones after it are
    not queried. *)
Lemma get_target_traced_all t soup pre r post :
  match_all t = true ->
  tag_identifiers t = pre ++ r :: post ->
  Forall (fun r' => matched strainer t soup r' = []) pre ->
  matched strainer t soup r <> [] ->
  get_target_traced strainer t soup
  = (extract t (map Some (matched strainer t soup r)),
     map (rule_query t) pre ++ [rule_query t r]).
Proof.
  intros Hall Hrules Hpre Hr. unfold get_target_traced.
  rewrite Hrules, (for_rules_all_skip _ _ _ _ _ _ _ Hall Hpre).
  rewrite (for_rules_all_hit _ _ _ _ _ _ _ Hall Hr). reflexivity.
Qed.

Lemma comprehension_attrs a ns :
  Forall (has_text_attr a) ns ->
  comprehension
    (fun t : option Node =>
       match t with
       | None => Raises (AttributeError "get")
       | Some n =>
           match node_get n a with
           | Some (AttrStr v) => Returns (PyStr.strip v)
           | Some (AttrList _) | None => Raises (AttributeError "strip")
           end
       end) (map Some ns)
  = Returns (map (stripped_attr a) ns).
Proof.
  induction 1 as [| n ns [v Hv] _ IH]; [reflexivity |].
  cbn [map comprehension]. unfold stripped_attr at 1. rewrite Hv, IH. reflexivity.
Qed.

Lemma comprehension_attr_missing a ns :
  Exists (fun n => node_get n a = None) ns ->
  comprehension
    (fun t : option Node =>
       match t with
       | None => Raises (AttributeError "get")
       | Some n =>
           match node_get n a with
           | Some (AttrStr v) => Returns (PyStr.strip v)
           | Some (AttrList _) | None => Raises (AttributeError "strip")
           end
       end) (map Some ns)
  = Raises (AttributeError "strip").
Proof.
  induction 1 as [n ns Hn | n ns _ IH]; cbn [map comprehension].
  - now rewrite Hn.
  - rewrite IH. now destruct (node_get n a) as [[v | l] |].
Qed.

(** X1.  A target whose ['tag_identifiers'] is empty cannot be resolved:
    the loop body never runs, [tag] stays unbound and [get_target] raises
    [UnboundLocalError] without querying the document, also when the
    target is nullable. *)
Theorem get_target_no_rules t soup :
  tag_identifiers t = [] ->
  get_target strainer t soup = Raises (UnboundLocalError "tag")
  /\ queries_issued strainer t soup = [].
Proof.
  intros Hrules. unfold get_target, queries_issued, get_target_traced.
  rewrite Hrules. split; reflexivity.
Qed.

(** X2.  With ['all': True] and no ['attr'], the first rule that selects
    anything decides: [get_target] returns the stripped texts of all the
    tags it selects, in document order and as many as there are; the rules
    before it were queried, those after it are not. *)
Theorem get_target_all_texts t soup pre r post :
  match_all t = true ->
  attr t = None ->
  tag_identifiers t = pre ++ r :: post ->
  Forall (fun r' => matched strainer t soup r' = []) pre ->
  matched strainer t soup r <> [] ->
  get_target strainer t soup
  = Returns (PList (map (fun n => PyStr.strip (node_text n))
                        (matched strainer t soup r)))
  /\ queries_issued strainer t soup = map (rule_query t) pre ++ [rule_query t r].
Proof.
  intros Hall Hattr Hrules Hpre Hr. unfold get_target, queries_issued.
  rewrite (get_target_traced_all _ _ _ _ _ Hall Hrules Hpre Hr). cbn [fst snd].
  split; [| reflexivity]. unfold extract. rewrite Hattr.
  now apply get_text_found.
Qed.

(** X3.  With ['all': True] and ['attr'], when every tag selected by the
    deciding rule carries the attribute as a single string, [get_target]
    returns their stripped attribute values, in document order. *)
Theorem get_target_all_attrs t soup a pre r post :
  match_all t = true ->
  attr t = Some a ->
  tag_identifiers t = pre ++ r :: post ->
  Forall (fun r' => matched strainer t soup r' = []) pre ->
  matched strainer t soup r <> [] ->
  Forall (has_text_attr a) (matched strainer t soup r) ->
  get_target strainer t soup
  = Returns (PList (map (stripped_attr a) (matched strainer t soup r))).
Proof.
  intros Hall Hattr Hrules Hpre Hr Hhas. unfold get_target.
  rewrite (get_target_traced_all _ _ _ _ _ Hall Hrules Hpre Hr). cbn [fst].
  unfold extract, get_attr. rewrite Hattr.
  destruct (matched strainer t soup r) as [| n ns] eqn:Hns; [congruence |].
  cbn [map nonempty negb]. rewrite andb_false_r.
  change (Some n :: map Some ns) with (map Some (n :: ns)).
  now rewrite (comprehension_attrs a (n :: ns) Hhas).
Qed.

(** X4.  With ['all': True] and ['attr'], one selected tag without the
    attribute makes the whole resolution raise: [t.get(attr)] is [None]
    and [None.strip()] raises [AttributeError]; being nullable does not
    help. *)
Theorem get_target_all_attr_missing t soup a pre r post :
  match_all t = true ->
  attr t = Some a ->
  tag_identifiers t = pre ++ r :: post ->
  Forall (fun r' => matched strainer t soup r' = []) pre ->
  Exists (fun n => node_get n a = None) (matched strainer t soup r) ->
  get_target strainer t soup = Raises (AttributeError "strip").
Proof.
  intros Hall Hattr Hrules Hpre Hmiss. unfold get_target.
  assert (Hr : matched strainer t soup r <> []).
  { intros H. rewrite H in Hmiss. inversion Hmiss. }
  rewrite (get_target_traced_all _ _ _ _ _ Hall Hrules Hpre Hr). cbn [fst].
  unfold extract, get_attr. rewrite Hattr.
  destruct (matched strainer t soup r) as [| n ns] eqn:Hns; [congruence |].
  cbn [map nonempty negb]. rewrite andb_false_r.
  change (Some n :: map Some ns) with (map Some (n :: ns)).
  now rewrite (comprehension_attr_missing a (n :: ns) Hmiss).
Qed.

(** X5.  Without ['all': True], when the first rule selects several tags,
    only the first of them in document order is used: [get_target]
    returns a one-element list with its stripped text, or with its
    stripped attribute value, and raises [AttributeError] when that tag
    lacks the attribute or holds it as a list of values. *)
Theorem get_target_first_of_many t soup r rs e others :
  match_all t = false ->
  tag_identifiers t = r :: rs ->
  matched strainer t soup r = e :: others ->
  get_target strainer t soup
  = match attr t with
    | None => Returns (PList [PyStr.strip (node_text e)])
    | Some a =>
        match node_get e a with
        | Some (AttrStr v) => Returns (PList [PyStr.strip v])
        | Some (AttrList _) | None => Raises (AttributeError "strip")
        end
    end.
Proof.
  intros Hall Hrules Hr. unfold get_target.
  rewrite (get_target_traced_first _ _ _ _ _ Hall Hrules), Hr. cbn [fst head].
  unfold extract, get_attr, get_text. cbn [nonempty negb]. rewrite andb_false_r.
  destruct (attr t) as [a |]; [| reflexivity].
  cbn [comprehension obind]. now destruct (node_get e a) as [[v | l] |].
Qed.

(** X6.  Without ['all': True] the ['nullable'] key has no effect at all:
    the target resolves to the same value, or raises the same exception,
    whatever it is set to. *)
Theorem nullable_irrelevant_without_all t soup b :
  match_all t = false ->
  get_target strainer (with_nullable b t) soup = get_target strainer t soup.
Proof.
  intros Hall. unfold get_target.
  destruct (tag_identifiers t) as [| r rs] eqn:Hrules.
  - unfold get_target_traced. cbn [tag_identifiers with_nullable]. now rewrite Hrules.
  - rewrite (get_target_traced_first strainer (with_nullable b t) soup r rs Hall Hrules).
    rewrite (get_target_traced_first strainer t soup r rs Hall Hrules).
    cbn [fst]. unfold extract, get_attr, get_text. cbn [nonempty negb attr with_nullable].
    now rewrite !andb_false_r.
Qed.

End ResolverMore.

(** ** [str.strip] and the shape of a resolved value *)

Section ShapeFacts.

Variable strainer :
  option string -> gmap string string -> string -> gmap string AttrValue -> bool.

(** The first character of [l] is recognised by [w1], [w2] or [w3]. *)
Lemma lstrip_by_clean w1 w2 w3 l :
  PyStr.lstrip_by w1 w2 w3 (PyStr.lstrip_by w1 w2 w3 l) = PyStr.lstrip_by w1 w2 w3 l
  /\ exists dropped, l = dropped ++ PyStr.lstrip_by w1 w2 w3 l.
Proof.
  remember (List.length l) as n eqn:Hn.
  revert l Hn. induction n as [n IH] using lt_wf_ind. intros l Hn.
  destruct l as [| a l1]; [split; [reflexivity | now exists []] |].
  cbn [PyStr.lstrip_by]. destruct (w1 a) eqn:H1.
  { destruct (IH (List.length l1) ltac:(subst n; cbn; lia) l1 eq_refl) as [Hi [dr Hd]].
    split; [exact Hi |]. exists (a :: dr). cbn. now rewrite <- Hd. }
  destruct l1 as [| b l2].
  { split; [cbn; now rewrite H1 | now exists []]. }
  destruct (w2 a b) eqn:H2.
  { destruct (IH (List.length l2) ltac:(subst n; cbn; lia) l2 eq_refl) as [Hi [dr Hd]].
    split; [exact Hi |]. exists (a :: b :: dr). cbn. now rewrite <- Hd. }
  destruct l2 as [| c l3].
  { split; [cbn; now rewrite H1, H2 | now exists []]. }
  destruct (w3 a b c) eqn:H3.
  { destruct (IH (List.length l3) ltac:(subst n; cbn; lia) l3 eq_refl) as [Hi [dr Hd]].
    split; [exact Hi |]. exists (a :: b :: c :: dr). cbn. now rewrite <- Hd. }
  split; [cbn; now rewrite H1, H2, H3 | now exists []].
Qed.

(** A string that starts with no such character keeps none when it is cut
    short at the end. *)
Lemma lstrip_by_prefix w1 w2 w3 x y :
  PyStr.lstrip_by w1 w2 w3 (x ++ y) = x ++ y ->
  PyStr.lstrip_by w1 w2 w3 x = x.
Proof.
  intros H.
  assert (Hlen : forall l, (List.length (PyStr.lstrip_by w1 w2 w3 l) <= List.length l)%nat).
  { intros l. destruct (lstrip_by_clean w1 w2 w3 l) as [_ [dr Hd]].
    rewrite Hd at 2. rewrite length_app. lia. }
  assert (Hshort : forall pre l, (0 < List.length pre)%nat ->
             PyStr.lstrip_by w1 w2 w3 l = pre ++ l -> False).
  { intros pre l Hpre Hl. specialize (Hlen l). rewrite Hl, length_app in Hlen. lia. }
  destruct x as [| a x1]; [reflexivity |].
  cbn [app PyStr.lstrip_by] in *. destruct (w1 a).
  { exfalso. apply (Hshort [a] (x1 ++ y)); [cbn; lia | exact H]. }
  destruct x1 as [| b x2]; [reflexivity |].
  cbn [app] in *. destruct (w2 a b).
  { exfalso. apply (Hshort [a; b] (x2 ++ y)); [cbn; lia | exact H]. }
  destruct x2 as [| c x3]; [reflexivity |].
  cbn [app] in *. destruct (w3 a b c); [| reflexivity].
  exfalso. apply (Hshort [a; b; c] (x3 ++ y)); [cbn; lia | exact H].
Qed.

Lemma strip_bytes_strip_bytes l :
  PyStr.strip_bytes (PyStr.strip_bytes l) = PyStr.strip_bytes l.
Proof.
  unfold PyStr.strip_bytes, PyStr.lstrip_bytes, PyStr.rstrip_bytes.
  set (u := PyStr.lstrip_by PyStr.space1 PyStr.space2 PyStr.space3 l).
  set (back := PyStr.lstrip_by PyStr.space1 (fun a b => PyStr.space2 b a)
                 (fun a b c => PyStr.space3 c b a)).
  assert (Hu : PyStr.lstrip_by PyStr.space1 PyStr.space2 PyStr.space3 u = u)
    by apply lstrip_by_clean.
  destruct (lstrip_by_clean PyStr.space1 (fun a b => PyStr.space2 b a)
              (fun a b c => PyStr.space3 c b a) (rev u)) as [Hback [dr Hdr]].
  fold back in Hback, Hdr.
  assert (Hsplit : u = rev (back (rev u)) ++ rev dr).
  { rewrite <- rev_app_distr, <- Hdr. now rewrite rev_involutive. }
  rewrite Hsplit in Hu. apply lstrip_by_prefix in Hu.
  rewrite Hu, rev_involutive. unfold back in *. now rewrite Hback.
Qed.

(** Stripping a stripped string changes nothing. *)
Lemma strip_strip s : PyStr.strip (PyStr.strip s) = PyStr.strip s.
Proof.
  unfold PyStr.strip.
  now rewrite list_ascii_of_string_of_list_ascii, strip_bytes_strip_bytes.
Qed.

Lemma comprehension_shape {A} (f : A -> outcome string) (P : string -> Prop) l r :
  (forall a s, f a = Returns s -> P s) ->
  comprehension f l = Returns r ->
  List.length r = List.length l /\ Forall P r.
Proof.
  intros Hf. revert r. induction l as [| a l IH]; intros r H; cbn [comprehension] in H.
  - injection H as <-. split; [reflexivity | constructor].
  - destruct (f a) as [s |] eqn:Hs; cbn [obind] in H; [| discriminate].
    destruct (comprehension f l) as [r' |]; cbn [obind] in H; [| discriminate].
    injection H as <-. destruct (IH r' eq_refl) as [Hlen Hall].
    split; [cbn; now rewrite Hlen | constructor; eauto].
Qed.

Lemma extract_shape t tag v :
  extract t tag = Returns v ->
  (v = PStr "" /\ is_nullable t = true /\ tag = [])
  \/ exists l, v = PList l /\ List.length l = List.length tag
               /\ Forall (fun s => PyStr.strip s = s) l.
Proof.
  unfold extract, get_attr, get_text. intros H.
  destruct (is_nullable t) eqn:Hnull, tag as [| x tag]; cbn [nonempty negb andb] in H.
  1: { left. destruct (attr t); injection H as <-; auto. }
  all: right; destruct (attr t) as [a |];
    match type of H with
    | obind (comprehension ?f ?l) _ = _ =>
        destruct (comprehension f l) as [r |] eqn:Hr; cbn [obind] in H;
        [injection H as <- | discriminate];
        exists r; split; [reflexivity |];
        apply (comprehension_shape f (fun s => PyStr.strip s = s) l r); [| exact Hr]
    end;
    intros [n |] s Hs; try discriminate;
    try (destruct (node_get n a) as [[v | vs] |]; try discriminate);
    injection Hs as <-; apply strip_strip.
Qed.

(** X7.  Whatever [get_target] returns is either the empty string, which
    happens only for a nullable target with ['all': True], or a list of
    strings each of which is stripped; without ['all': True] the list has
    exactly one element. *)
Theorem get_target_shape t soup v :
  get_target strainer t soup = Returns v ->
  (v = PStr "" /\ is_nullable t = true /\ match_all t = true)
  \/ exists l, v = PList l
               /\ Forall (fun s => PyStr.strip s = s) l
               /\ (match_all t = false -> List.length l = 1%nat).
Proof.
  unfold get_target, get_target_traced. intros H.
  destruct (match_all t) eqn:Hall.
  - destruct (for_rules strainer t soup (tag_identifiers t) None []) as [[tag |] issued];
      cbn [fst] in H; [| discriminate].
    destruct (extract_shape t tag v H) as [(-> & Hnull & _) | (l & -> & _ & Hl)].
    + left. auto.
    + right. exists l. repeat split; [exact Hl | discriminate].
  - destruct (tag_identifiers t) as [| r rs] eqn:Hrules; cbn [for_rules fst] in H;
      [discriminate |].
    rewrite (run_query_first _ _ _ _ Hall) in H. cbn [nonempty fst] in H.
    destruct (extract_shape t _ v H) as [(_ & _ & Htag) | (l & -> & Hlen & Hl)];
      [discriminate |].
    right. exists l. repeat split; [exact Hl | intros _; exact Hlen].
Qed.

Lemma for_rules_same_all t t' soup rules tag issued :
  match_all t = match_all t' ->
  for_rules strainer t soup rules tag issued
  = for_rules strainer t' soup rules tag issued.
Proof.
  intros Hall. revert tag issued.
  assert (Hq : forall r, rule_query t r = rule_query t' r).
  { intros [tag_name tag_identifier]. unfold rule_query. now rewrite Hall. }
  induction rules as [| r rules IH]; intros tag issued; [reflexivity |].
  cbn [for_rules]. rewrite (Hq r), IH. reflexivity.
Qed.

(** X8.  A rule whose identifier has an ['id'] is resolved by that id
    alone: its tag name and its other identifier entries do not matter.
    Two targets that differ only there resolve alike and issue the same
    queries. *)
Theorem id_rule_ignores_the_rest t soup i name ident name' ident' rest :
  ident !! "id" = Some i ->
  ident' !! "id" = Some i ->
  get_target_traced strainer (with_rules ((name, ident) :: rest) t) soup
  = get_target_traced strainer (with_rules ((name', ident') :: rest) t) soup.
Proof.
  intros Hid Hid'. unfold get_target_traced.
  cbn [tag_identifiers with_rules for_rules].
  assert (Hq : rule_query (with_rules ((name, ident) :: rest) t) (name, ident)
               = rule_query (with_rules ((name', ident') :: rest) t) (name', ident')).
  { unfold rule_query. now rewrite Hid, Hid'. }
  rewrite Hq.
  rewrite (for_rules_same_all (with_rules ((name, ident) :: rest) t)
             (with_rules ((name', ident') :: rest) t)) by reflexivity.
  reflexivity.
Qed.

End ShapeFacts.

(** * Further properties of the polling loop *)

Section PollMore.

Variable strainer :
  option string -> gmap string string -> string -> gmap string AttrValue -> bool.
Variable BeautifulSoup : string -> Soup.

Local Abbreviation poll'' := (poll strainer BeautifulSoup).
Local Abbreviation polled'' := (polled BeautifulSoup).

(** With a negative budget the loop condition never fails on the budget:
    while the marker is not seen, every amount of fuel runs out. *)
Lemma poll_negative_runs_on fuel : forall max_delay o w d c,
  driver o = Some d ->
  page_load_checker o = Some c ->
  max_delay < 0 ->
  (forall i, exists v,
      get_target strainer c (polled'' d w i) = Returns v /\ truthy v = false) ->
  poll'' fuel false max_delay (o, w) = None.
Proof.
  induction fuel as [| fuel IH]; intros max_delay o w d c Hd Hc Hmd Hnever.
  - cbn [poll negb andb].
    destruct (max_delay =? 0) eqn:E; [apply Z.eqb_eq in E; lia | reflexivity].
  - rewrite (poll_round _ _ _ _ _ _ d c) by (assumption || lia).
    destruct (Hnever 0%nat) as (v & -> & ->).
    apply (IH (max_delay - 1) o (ticks 1 w) d c); try assumption; try lia.
    intros i. rewrite polled_ticks. apply Hnever.
Qed.

(** What the loop keeps: it sleeps once per round, reads at most once per
    sleep, and a budget that is not negative bounds the rounds. *)
Lemma poll_within_budget fuel : forall found max_delay o w r s',
  0 <= max_delay ->
  poll'' fuel found max_delay (o, w) = Some (r, s') ->
  exists n,
    slept (snd s') = (slept w + n)%nat
    /\ (reads (snd s') <= reads w + n)%nat
    /\ Z.of_nat n <= max_delay
    /\ (r = Returns false ->
        found = false /\ Z.of_nat n = max_delay /\ reads (snd s') = (reads w + n)%nat)
    /\ (r = Returns true ->
        reads (snd s') = (reads w + n)%nat /\ (found = false -> (1 <= n)%nat)).
Proof.
  induction fuel as [| fuel IH]; intros found max_delay o w r s' Hmd H;
    cbn [poll] in H;
    destruct (negb found && negb (max_delay =? 0)) eqn:Hgo;
    try discriminate.
  1, 3:
    injection H as <- <-; exists 0%nat; cbn [snd];
    rewrite !Nat.add_0_r;
    apply andb_false_iff in Hgo;
    repeat split; try lia;
    try (intros [= <-]); try (intros [= ->]);
    try discriminate;
    destruct Hgo as [Hgo | Hgo];
    try (apply negb_false_iff in Hgo; try discriminate);
    try (apply Z.eqb_eq in Hgo); try lia; try congruence.
  apply andb_true_iff in Hgo as [Hfound Hnz].
  apply negb_true_iff in Hfound. apply negb_true_iff, Z.eqb_neq in Hnz. subst found.
  unfold sleep_one_tick, read_page_source, bind, ret, raise, lift, self, world,
    update_world in H. cbn [fst snd] in H.
  destruct (driver o) as [d |].
  2: { injection H as <- <-. exists 1%nat. cbn [snd slept reads].
       repeat split; try lia; discriminate. }
  cbn [fst snd visited reads slept fetched] in H.
  destruct (page_load_checker o) as [c |].
  2: { injection H as <- <-. exists 1%nat. cbn [snd slept reads].
       repeat split; try lia; discriminate. }
  destruct (get_target strainer c _) as [v | e].
  2: { injection H as <- <-. exists 1%nat. cbn [snd slept reads].
       repeat split; try lia; discriminate. }
  apply IH in H; [| lia].
  destruct H as (n & Hs & Hr & Hn & Hfalse & Htrue). cbn [slept reads] in *.
  exists (S n). split; [lia |]. split; [lia |]. split; [lia |]. split.
  - intros ->. destruct (Hfalse eq_refl) as (_ & Hm & Hrd).
    split; [reflexivity |]. split; lia.
  - intros ->. destruct (Htrue eq_refl) as (Hrd & _). split; lia.
Qed.

(** X9.  With [max_delay = 0] [check_page_loaded] answers [False] at
    once: it neither sleeps nor reads the page source, so a marker that
    is already there goes unseen; the checker has been made nullable all
    the same. *)
Theorem check_page_loaded_zero_budget fuel o w c :
  page_load_checker o = Some c ->
  check_page_loaded strainer BeautifulSoup fuel 0 (o, w)
  = Some (Returns false, (write_checker (set_nullable c) o, w)).
Proof.
  intros Hc. rewrite (check_page_loaded_unfold _ _ _ _ _ _ c Hc).
  apply poll_done. now right.
Qed.

(** X10.  With a negative [max_delay] there is no timeout: as long as
    every polled document resolves the checker to a falsy value,
    [check_page_loaded] is still polling after any number of rounds. *)
Theorem check_page_loaded_negative_budget fuel max_delay o w d c :
  driver o = Some d ->
  page_load_checker o = Some c ->
  max_delay < 0 ->
  (forall i, exists v,
      get_target strainer (set_nullable c) (polled BeautifulSoup d w i) = Returns v
      /\ truthy v = false) ->
  check_page_loaded strainer BeautifulSoup fuel max_delay (o, w) = None.
Proof.
  intros Hd Hc Hmd Hnever. rewrite (check_page_loaded_unfold _ _ _ _ _ _ c Hc).
  now apply (poll_negative_runs_on fuel max_delay _ w d (set_nullable c)).
Qed.

(** X11.  With a budget that is not negative, [check_page_loaded] sleeps
    at most [max_delay] seconds, one per round, and reads the page source
    at most once per second slept.  It answers [False] only after the
    whole budget, and [True] only after at least one second: it never
    looks at the page before sleeping. *)
Theorem check_page_loaded_within_budget fuel max_delay o w r s' :
  0 <= max_delay ->
  check_page_loaded strainer BeautifulSoup fuel max_delay (o, w) = Some (r, s') ->
  exists n,
    slept (snd s') = (slept w + n)%nat
    /\ (reads (snd s') <= reads w + n)%nat
    /\ Z.of_nat n <= max_delay
    /\ (r = Returns false -> Z.of_nat n = max_delay)
    /\ (r = Returns true -> (1 <= n)%nat).
Proof.
  intros Hmd H. unfold check_page_loaded, bind, self, update_self, raise in H.
  cbn [fst snd] in H. destruct (page_load_checker o) as [c |].
  - apply poll_within_budget in H; [| exact Hmd].
    destruct H as (n & Hs & Hr & Hn & Hfalse & Htrue).
    exists n. repeat split; try assumption.
    + intros Hf. now destruct (Hfalse Hf) as (_ & ? & _).
    + intros Ht. destruct (Htrue Ht) as (_ & Hone). now apply Hone.
  - injection H as <- <-. exists 0%nat. cbn [snd]. rewrite !Nat.add_0_r.
    repeat split; try lia; discriminate.
Qed.

(** X12.  A checker without ['all': True] and without ['attr'] settles
    everything in the first round, whatever the budget: if its first rule
    selects a tag in the first polled document the answer is [True], and
    if not the call raises [AttributeError]; either way after one sleep
    and one read. *)
Theorem check_page_loaded_first_round_decides fuel max_delay o w d c r rs :
  driver o = Some d ->
  page_load_checker o = Some c ->
  match_all c = false ->
  attr c = None ->
  tag_identifiers c = r :: rs ->
  max_delay <> 0 ->
  check_page_loaded strainer BeautifulSoup (S fuel) max_delay (o, w)
  = Some (if nonempty (matched strainer c (polled BeautifulSoup d w 0) r)
          then Returns true
          else Raises (AttributeError "get_text"),
          (write_checker (set_nullable c) o, ticks 1 w)).
Proof.
  intros Hd Hc Hall Hattr Hrules Hmd.
  destruct (matched strainer c (polled BeautifulSoup d w 0) r) as [| e others] eqn:Hr;
    cbn [nonempty].
  - rewrite (check_page_loaded_first_absent strainer BeautifulSoup fuel max_delay
               o w d c r rs Hd Hc Hall Hrules Hr Hmd).
    now rewrite Hattr.
  - rewrite (check_page_loaded_unfold _ _ _ _ _ _ c Hc).
    rewrite (poll_round _ _ _ _ _ _ d (set_nullable c)); try assumption; try reflexivity.
    unfold get_target.
    rewrite (get_target_traced_first strainer (set_nullable c) _ r rs Hall Hrules).
    change (matched strainer (set_nullable c)) with (matched strainer c). rewrite Hr.
    cbn [fst head]. unfold extract, get_text. cbn [attr set_nullable]. rewrite Hattr.
    cbn [nonempty negb]. rewrite andb_false_r. cbn [comprehension obind truthy].
    apply poll_done. now left.
Qed.

End PollMore.

(** * Further properties of the script and style removal *)

Section StripMore.

Variable strainer :
  option string -> gmap string string -> string -> gmap string AttrValue -> bool.

Lemma selects_head name attrs n n' :
  tag_head n = tag_head n' ->
  selects strainer name attrs n = selects strainer name attrs n'.
Proof.
  destruct n as [s | k s | nm a cs], n' as [s' | k' s' | nm' a' cs']; cbn;
    try discriminate; try reflexivity.
  now intros [= -> ->].
Qed.

(** Every tag left by the removal was in the document, with this name and
    these attributes. *)
Lemma decompose_in_origin n x :
  In x (descendants (decompose_in n)) ->
  exists y, In y (tags_of n) /\ tag_head x = tag_head y.
Proof.
  revert x. induction n as [s | k s | nm a cs IH] using Node_nested_ind; intros x Hx.
  - destruct Hx.
  - destruct Hx.
  - rewrite decompose_in_tag in Hx. destruct (useless nm); [destruct Hx |].
    unfold descendants in Hx. cbn [flat_map] in Hx. rewrite app_nil_r, tags_of_tag in Hx.
    destruct Hx as [<- | Hx].
    + exists (Tag nm a cs). split; [now left | reflexivity].
    + unfold descendants, remove_useless in Hx.
      apply in_flat_map in Hx as (m & Hm & Hx).
      apply in_flat_map in Hm as (c & Hc & Hm).
      rewrite List.Forall_forall in IH.
      destruct (IH c Hc x) as (y & Hy & Hxy).
      { unfold descendants. apply in_flat_map. eauto. }
      exists y. split; [| exact Hxy].
      rewrite tags_of_tag. right. unfold descendants. apply in_flat_map. eauto.
Qed.

Lemma remove_useless_origin d x :
  In x (descendants (remove_useless d)) ->
  exists y, In y (descendants d) /\ tag_head x = tag_head y.
Proof.
  unfold descendants at 1, remove_useless. intros Hx.
  apply in_flat_map in Hx as (m & Hm & Hx).
  apply in_flat_map in Hm as (n & Hn & Hm).
  destruct (decompose_in_origin n x) as (y & Hy & Hxy).
  { unfold descendants. apply in_flat_map. eauto. }
  exists y. split; [| exact Hxy]. unfold descendants. apply in_flat_map. eauto.
Qed.

(** X13.  The removal only ever takes matches away: a filter that selects
    no tag of the document selects none of what is left either, so no
    rule starts to match because of it. *)
Theorem remove_useless_adds_no_match d name attrs :
  find_all strainer d name attrs = [] ->
  find_all strainer (remove_useless d) name attrs = [].
Proof.
  unfold find_all. intros Hnone.
  destruct (List.filter _ (descendants (remove_useless d))) as [| x l] eqn:Hx;
    [reflexivity |].
  assert (Hin : In x (List.filter (selects strainer name attrs)
                        (descendants (remove_useless d)))) by (rewrite Hx; now left).
  apply filter_In in Hin as [Hin Hsel].
  destruct (remove_useless_origin d x Hin) as (y & Hy & Hxy).
  rewrite (selects_head name attrs x y Hxy) in Hsel.
  assert (Hy' : In y (List.filter (selects strainer name attrs) (descendants d)))
    by (apply filter_In; auto).
  rewrite Hnone in Hy'. destruct Hy'.
Qed.

(** X14.  Removing the script and style tags a second time changes
    nothing. *)
Theorem remove_useless_idempotent d :
  remove_useless (remove_useless d) = remove_useless d.
Proof. apply remove_useless_fixed, remove_useless_script_free. Qed.

End StripMore.

(** * Further properties of the result dictionary *)

Lemma call_extra_functions_keys d fs : forall acc m,
  call_extra_functions d fs acc = Returns m ->
  forall k, is_Some (m !! k) <-> is_Some (acc !! k) \/ In k (map fst fs).
Proof.
  induction fs as [| [k0 f] fs IH]; intros acc m H k; cbn [call_extra_functions] in H.
  - injection H as <-. cbn. tauto.
  - destruct (f d) as [v |]; cbn [obind] in H; [| discriminate].
    rewrite (IH _ _ H k), lookup_insert_is_Some'. cbn [map In fst].
    split; [intros [[-> | ?] | ?] | intros [? | [-> | ?]]]; auto.
Qed.

Lemma call_extra_functions_other d fs : forall acc m k,
  call_extra_functions d fs acc = Returns m ->
  ~ In k (map fst fs) ->
  m !! k = acc !! k.
Proof.
  induction fs as [| [k0 f] fs IH]; intros acc m k H Hk; cbn [call_extra_functions] in H.
  - now injection H as <-.
  - destruct (f d) as [v |]; cbn [obind] in H; [| discriminate].
    cbn [map In fst] in Hk. rewrite (IH _ _ k H) by tauto.
    apply lookup_insert_ne. tauto.
Qed.

Lemma call_extra_functions_lookup d fs : forall acc m k f,
  call_extra_functions d fs acc = Returns m ->
  List.NoDup (map fst fs) ->
  In (k, f) fs ->
  exists v, f d = Returns v /\ m !! k = Some v.
Proof.
  induction fs as [| [k0 f0] fs IH]; intros acc m k f H Hnodup Hin;
    cbn [call_extra_functions] in H; [destruct Hin |].
  destruct (f0 d) as [v0 |] eqn:Hf0; cbn [obind] in H; [| discriminate].
  cbn [map fst] in Hnodup. apply List.NoDup_cons_iff in Hnodup as [Hfresh Hnodup].
  destruct Hin as [[= -> ->] | Hin].
  - exists v0. split; [exact Hf0 |].
    rewrite (call_extra_functions_other d fs _ m k H Hfresh). apply lookup_insert_eq.
  - now apply (IH _ m k f H).
Qed.

Section ResultFacts.

Variable strainer :
  option string -> gmap string string -> string -> gmap string AttrValue -> bool.

(** Targets that resolve and have a key are worked off one by one. *)
Lemma resolve_targets_prefix d ts1 : forall rest acc,
  Forall (fun t => is_Some (key t)
                   /\ exists v, get_target strainer t d = Returns v) ts1 ->
  exists acc', resolve_targets strainer d (ts1 ++ rest) acc
               = resolve_targets strainer d rest acc'.
Proof.
  induction ts1 as [| t ts1 IH]; intros rest acc Hfine; [now exists acc |].
  apply List.Forall_cons_iff in Hfine as [[[k Hk] [v Hv]] Hfine].
  cbn [app resolve_targets]. rewrite Hv, Hk. cbn [obind]. now apply IH.
Qed.

Lemma resolve_targets_keys d ts : forall acc m,
  resolve_targets strainer d ts acc = Returns m ->
  forall k, is_Some (m !! k) <-> is_Some (acc !! k) \/ In (Some k) (map key ts).
Proof.
  induction ts as [| t ts IH]; intros acc m H k; cbn [resolve_targets] in H.
  - injection H as <-. cbn. tauto.
  - destruct (get_target strainer t d) as [v |]; cbn [obind] in H; [| discriminate].
    destruct (key t) as [k0 |] eqn:Hk; [| discriminate].
    rewrite (IH _ _ H k), lookup_insert_is_Some'. cbn [map In]. rewrite Hk.
    split; [intros [[-> | ?] | ?] | intros [? | [[= ->] | ?]]]; auto.
Qed.

(** X15.  When [run] returns, its result has exactly the keys of the
    targets and of the extra functions: no key is lost, none is made up. *)
Theorem resolve_keys d o m :
  resolve strainer d o = Returns m ->
  forall k, is_Some (m !! k)
            <-> In (Some k) (map key (targets o)) \/ In k (map fst (extra_functions o)).
Proof.
  unfold resolve. intros H k.
  destruct (resolve_targets strainer d (targets o) ∅) as [m0 |] eqn:Hts;
    cbn [obind] in H; [| discriminate].
  rewrite (call_extra_functions_keys d _ _ _ H k).
  rewrite (resolve_targets_keys d _ _ _ Hts k), lookup_empty.
  split; [intros [[[? [=]] | ?] | ?] | intros [? | ?]]; auto.
Qed.

(** X16.  The extra functions are called after the targets and write
    into the same dictionary: when their keys are distinct, the value
    under an extra function's key is what that function returned for the
    stripped document, also when a target has the same key. *)
Theorem extra_function_has_last_word d o m k f :
  resolve strainer d o = Returns m ->
  List.NoDup (map fst (extra_functions o)) ->
  In (k, f) (extra_functions o) ->
  exists v, f d = Returns v /\ m !! k = Some v.
Proof.
  unfold resolve. intros H Hnodup Hin.
  destruct (resolve_targets strainer d (targets o) ∅) as [m0 |];
    cbn [obind] in H; [| discriminate].
  exact (call_extra_functions_lookup d _ _ m k f H Hnodup Hin).
Qed.

(** X17.  One target that cannot be resolved costs the whole result: when
    the targets before it resolve and it raises, [run]'s resolution raises
    the same exception; the later targets and the extra functions are
    not reached and nothing resolved so far is returned. *)
Theorem failing_target_aborts d o ts1 t ts2 e :
  targets o = ts1 ++ t :: ts2 ->
  Forall (fun t' => is_Some (key t')
                    /\ exists v, get_target strainer t' d = Returns v) ts1 ->
  get_target strainer t d = Raises e ->
  resolve strainer d o = Raises e.
Proof.
  intros Hts Hfine Ht. unfold resolve. rewrite Hts.
  destruct (resolve_targets_prefix d ts1 (t :: ts2) ∅ Hfine) as [acc' ->].
  cbn [resolve_targets]. now rewrite Ht.
Qed.

(** X18.  A target dictionary without ['key'] is noticed only after the
    target has been resolved: if the resolution returns, [run] raises
    [KeyError]. *)
Theorem target_without_key d o ts1 t ts2 v :
  targets o = ts1 ++ t :: ts2 ->
  Forall (fun t' => is_Some (key t')
                    /\ exists v, get_target strainer t' d = Returns v) ts1 ->
  key t = None ->
  get_target strainer t d = Returns v ->
  resolve strainer d o = Raises (KeyError "key").
Proof.
  intros Hts Hfine Hk Ht. unfold resolve. rewrite Hts.
  destruct (resolve_targets_prefix d ts1 (t :: ts2) ∅ Hfine) as [acc' ->].
  cbn [resolve_targets]. now rewrite Ht, Hk.
Qed.

End ResultFacts.

(** * Further properties of [run] *)

Section RunMore.

Variable strainer :
  option string -> gmap string string -> string -> gmap string AttrValue -> bool.
Variable BeautifulSoup : string -> Soup.
Variable requests_get : string -> outcome string.

Lemma run_without_url_state o w :
  url o = None ->
  run strainer BeautifulSoup requests_get (o, w)
  = Some (Raises (ValueError "url cannot be empty"), (o, w)).
Proof.
  intros Hu. unfold run, run_with, bind, self, raise. cbn [fst snd]. now rewrite Hu.
Qed.

(** X19.  In SOUP mode without a document [run] raises
    [ValueError('soup cannot be empty')]; nothing is fetched. *)
Theorem run_soup_without_document o w u :
  mode o = SOUP ->
  url o = Some u ->
  soup o = None ->
  run strainer BeautifulSoup requests_get (o, w)
  = Some (Raises (ValueError "soup cannot be empty"), (o, w)).
Proof.
  intros Hmode Hu Hd.
  now rewrite (run_unfold _ _ _ _ _ u Hu), (obtain_soup_given _ _ _ _ _ _ Hmode), Hd.
Qed.

Lemma run_soup_given o w u d :
  mode o = SOUP ->
  url o = Some u ->
  soup o = Some d ->
  run strainer BeautifulSoup requests_get (o, w)
  = Some (resolve strainer (remove_useless d) o,
          (set_soup (Some (remove_useless d)) o, w)).
Proof.
  intros Hmode Hu Hd.
  rewrite (run_unfold _ _ _ _ _ u Hu), (obtain_soup_given _ _ _ _ _ _ Hmode), Hd.
  now rewrite (strip_and_resolve_some _ _ _ d Hd).
Qed.

(** X20.  In SOUP mode with a document, [run] touches neither the driver
    nor the network, and the URL it insists on is never used; the
    caller's document is modified in place, losing its script and style
    tags. *)
Theorem run_soup_in_place o w u d :
  mode o = SOUP ->
  url o = Some u ->
  soup o = Some d ->
  run strainer BeautifulSoup requests_get (o, w)
  = Some (resolve strainer (remove_useless d) o,
          (set_soup (Some (remove_useless d)) o, w)).
Proof. apply run_soup_given. Qed.

(** X21.  In SOUP mode [run] can be called again on the same object: the
    second call, which finds the document already stripped, has the same
    outcome and changes nothing further. *)
Theorem run_soup_repeatable o w r s1 :
  mode o = SOUP ->
  run strainer BeautifulSoup requests_get (o, w) = Some (r, s1) ->
  run strainer BeautifulSoup requests_get s1 = Some (r, s1).
Proof.
  intros Hmode H.
  destruct (url o) as [u |] eqn:Hu.
  - destruct (soup o) as [d |] eqn:Hd.
    + rewrite (run_soup_given o w u d Hmode Hu Hd) in H. injection H as <- <-.
      rewrite (run_soup_given (set_soup (Some (remove_useless d)) o) w u
                 (remove_useless d) Hmode Hu eq_refl).
      rewrite (remove_useless_fixed _ (remove_useless_script_free d)).
      reflexivity.
    + rewrite (run_unfold _ _ _ _ _ u Hu), (obtain_soup_given _ _ _ _ _ _ Hmode), Hd in H.
      injection H as <- <-.
      now rewrite (run_unfold _ _ _ _ _ u Hu), (obtain_soup_given _ _ _ _ _ _ Hmode), Hd.
  - rewrite (run_without_url_state o w Hu) in H. injection H as <- <-.
    now apply run_without_url_state.
Qed.

End RunMore.

(** * Static and dynamic runs, and [sample.py] *)

Section RunModes.

Variable strainer :
  option string -> gmap string string -> string -> gmap string AttrValue -> bool.
Variable BeautifulSoup : string -> Soup.
Variable requests_get : string -> outcome string.

Lemma run_dynamic_plain o w u d :
  mode o = DYNAMIC ->
  url o = Some u ->
  driver o = Some d ->
  page_load_checker o = None ->
  let doc := remove_useless
               (BeautifulSoup (page_source d (visited w ++ [u]) (reads w))) in
  run strainer BeautifulSoup requests_get (o, w)
  = Some (resolve strainer doc o,
          (set_soup (Some doc) o,
           {| visited := visited w ++ [u]; reads := S (reads w);
              slept := slept w; fetched := fetched w |})).
Proof.
  intros Hmode Hu Hd Hc doc.
  rewrite (run_unfold _ _ _ _ _ u Hu).
  rewrite (obtain_soup_no_checker _ _ _ _ _ _ d Hmode Hd Hc).
  erewrite strip_and_resolve_some by reflexivity. reflexivity.
Qed.

(** X22.  In static mode [run] fetches the URL once and never touches a
    driver, supplied or not.  If the fetch raises, [run] raises the same
    exception and [self.soup] keeps its old value; otherwise the body is
    parsed, stripped, stored in [self.soup] and resolved. *)
Theorem run_static o w u :
  mode o = STATIC ->
  url o = Some u ->
  run strainer BeautifulSoup requests_get (o, w)
  = let w' := {| visited := visited w; reads := reads w; slept := slept w;
                 fetched := fetched w ++ [u] |} in
    match requests_get u with
    | Returns html =>
        let doc := remove_useless (BeautifulSoup html) in
        Some (resolve strainer doc o, (set_soup (Some doc) o, w'))
    | Raises e => Some (Raises e, (o, w'))
    end.
Proof.
  intros Hmode Hu.
  rewrite (run_unfold _ _ _ _ _ u Hu), (obtain_soup_static _ _ _ _ _ _ Hmode).
  cbv zeta. destruct (requests_get u) as [html | e]; [| reflexivity].
  erewrite strip_and_resolve_some by reflexivity. reflexivity.
Qed.

(** X23.  In dynamic mode without a page-load checker [run] does not
    wait: it navigates once, reads the page source once, right away and
    without sleeping, and resolves against what it got. *)
Theorem run_dynamic_without_checker o w u d :
  mode o = DYNAMIC ->
  url o = Some u ->
  driver o = Some d ->
  page_load_checker o = None ->
  let doc := remove_useless
               (BeautifulSoup (page_source d (visited w ++ [u]) (reads w))) in
  run strainer BeautifulSoup requests_get (o, w)
  = Some (resolve strainer doc o,
          (set_soup (Some doc) o,
           {| visited := visited w ++ [u]; reads := S (reads w);
              slept := slept w; fetched := fetched w |})).
Proof. apply run_dynamic_plain. Qed.

(** X24.  [main] of sample.py: the browser goes to [base_url] and the
    page is read once, without waiting.  If every [a] tag of class
    [c-events__liga] outside script and style tags has an [href], what
    is printed is a dictionary with the one key [link_ligas], holding the
    stripped [href]s in document order, or the empty string when there is
    no such tag. *)
Theorem main_link_ligas d w :
  let doc := remove_useless
               (BeautifulSoup (page_source d (visited w ++ [Sample.base_url]) (reads w))) in
  let anchors := find_all strainer doc (Some "a") {[ "class" := "c-events__liga" ]} in
  Forall (has_text_attr "href") anchors ->
  Sample.main strainer BeautifulSoup requests_get d w
  = Some (Returns {[ "link_ligas" :=
                       match anchors with
                       | [] => PStr ""
                       | _ :: _ => PList (map (stripped_attr "href") anchors)
                       end ]},
          {| visited := visited w ++ [Sample.base_url]; reads := S (reads w);
             slept := slept w; fetched := fetched w |}).
Proof.
  intros doc anchors Hhref. unfold Sample.main.
  rewrite (run_dynamic_plain (Sample.betscrapper d) w Sample.base_url d
             eq_refl eq_refl eq_refl eq_refl).
  fold doc. cbn [snd]. do 2 f_equal.
  unfold resolve. cbn [targets extra_functions Sample.betscrapper resolve_targets].
  assert (Hq : matched strainer Sample.link_ligas doc
                 ("a", {[ "class" := "c-events__liga" ]}) = anchors) by reflexivity.
  assert (Ht : get_target strainer Sample.link_ligas doc
               = Returns match anchors with
                         | [] => PStr ""
                         | _ :: _ => PList (map (stripped_attr "href") anchors)
                         end).
  { destruct anchors as [| n ns] eqn:Hanchors.
    - rewrite get_target_all_absent; [reflexivity | reflexivity | discriminate |].
      repeat constructor. exact Hq.
    - unfold get_target.
      rewrite (get_target_traced_all strainer Sample.link_ligas doc []
                 ("a", {[ "class" := "c-events__liga" ]}) []);
        [| reflexivity | reflexivity | constructor | rewrite Hq; discriminate].
      rewrite Hq. cbn [fst]. unfold extract, get_attr.
      cbn [attr Sample.link_ligas map nonempty negb]. rewrite andb_false_r.
      change (Some n :: map Some ns) with (map Some (n :: ns)).
      now rewrite (comprehension_attrs "href" (n :: ns) Hhref). }
  rewrite Ht. reflexivity.
Qed.

End RunModes.

(** * The further properties on concrete documents and sessions *)

Section MoreExamples.

Import Demo SampleDemo.

Ltac side := solve [reflexivity | discriminate | by_evaluation | lia].

Lemma get_target_no_rules_witness :
  tag_identifiers (with_rules [] greeting) = []
  /\ (get_target exact_strainer (with_rules [] greeting) page_ready
      = Raises (UnboundLocalError "tag")
      /\ queries_issued exact_strainer (with_rules [] greeting) page_ready = []).
Proof.
  split; [side |].
  exact (get_target_no_rules exact_strainer (with_rules [] greeting) page_ready eq_refl).
Defined.

Lemma matched_liga_names :
  matched exact_strainer liga_names page_football rule_liga
  = [liga " line/Football/1-England " "England"; liga "line/Football/2-Spain" "Spain"].
Proof. by_evaluation. Qed.

Lemma get_target_all_texts_witness :
  match_all liga_names = true
  /\ attr liga_names = None
  /\ tag_identifiers liga_names = [rule_p] ++ rule_liga :: []
  /\ Forall (fun r' => matched exact_strainer liga_names page_football r' = []) [rule_p]
  /\ matched exact_strainer liga_names page_football rule_liga <> []
  /\ (get_target exact_strainer liga_names page_football
      = Returns (PList (map (fun n => PyStr.strip (node_text n))
                            (matched exact_strainer liga_names page_football rule_liga)))
      /\ queries_issued exact_strainer liga_names page_football
         = map (rule_query liga_names) [rule_p] ++ [rule_query liga_names rule_liga]).
Proof.
  assert (Hpre : Forall (fun r' => matched exact_strainer liga_names page_football r' = [])
                   [rule_p]) by (repeat constructor).
  assert (Hr : matched exact_strainer liga_names page_football rule_liga <> [])
    by (rewrite matched_liga_names; discriminate).
  do 3 (split; [side |]). split; [exact Hpre |]. split; [exact Hr |].
  exact (get_target_all_texts exact_strainer liga_names page_football [rule_p] rule_liga []
           eq_refl eq_refl eq_refl Hpre Hr).
Defined.

(** The two leagues of [page_football], by name and by link. *)
Example leagues_of_page_football :
  get_target exact_strainer liga_names page_football
  = Returns (PList ["England"; "Spain"])
  /\ get_target exact_strainer Sample.link_ligas page_football
     = Returns (PList ["line/Football/1-England"; "line/Football/2-Spain"]).
Proof. split; by_evaluation. Qed.

Lemma matched_link_ligas :
  matched exact_strainer Sample.link_ligas page_football rule_liga
  = [liga " line/Football/1-England " "England"; liga "line/Football/2-Spain" "Spain"].
Proof. by_evaluation. Qed.

Lemma get_target_all_attrs_witness :
  match_all Sample.link_ligas = true
  /\ attr Sample.link_ligas = Some "href"
  /\ tag_identifiers Sample.link_ligas = [] ++ rule_liga :: []
  /\ Forall (fun r' => matched exact_strainer Sample.link_ligas page_football r' = []) []
  /\ matched exact_strainer Sample.link_ligas page_football rule_liga <> []
  /\ Forall (has_text_attr "href")
       (matched exact_strainer Sample.link_ligas page_football rule_liga)
  /\ get_target exact_strainer Sample.link_ligas page_football
     = Returns (PList (map (stripped_attr "href")
                           (matched exact_strainer Sample.link_ligas page_football
                              rule_liga))).
Proof.
  assert (Hr : matched exact_strainer Sample.link_ligas page_football rule_liga <> [])
    by (rewrite matched_link_ligas; discriminate).
  assert (Hhas : Forall (has_text_attr "href")
                   (matched exact_strainer Sample.link_ligas page_football rule_liga))
    by (rewrite matched_link_ligas; repeat constructor; eexists; by_evaluation).
  do 3 (split; [side |]). split; [constructor |]. split; [exact Hr |].
  split; [exact Hhas |].
  exact (get_target_all_attrs exact_strainer Sample.link_ligas page_football "href"
           [] rule_liga [] eq_refl eq_refl eq_refl (List.Forall_nil _) Hr Hhas).
Defined.

Lemma get_target_all_attr_missing_witness :
  match_all liga_titles = true
  /\ attr liga_titles = Some "title"
  /\ tag_identifiers liga_titles = [] ++ rule_liga :: []
  /\ Forall (fun r' => matched exact_strainer liga_titles page_football r' = []) []
  /\ Exists (fun n => node_get n "title" = None)
       (matched exact_strainer liga_titles page_football rule_liga)
  /\ get_target exact_strainer liga_titles page_football
     = Raises (AttributeError "strip").
Proof.
  assert (Hmiss : Exists (fun n => node_get n "title" = None)
                    (matched exact_strainer liga_titles page_football rule_liga)).
  { replace (matched exact_strainer liga_titles page_football rule_liga)
      with [liga " line/Football/1-England " "England"; liga "line/Football/2-Spain" "Spain"]
      by by_evaluation.
    left. by_evaluation. }
  do 3 (split; [side |]). split; [constructor |]. split; [exact Hmiss |].
  exact (get_target_all_attr_missing exact_strainer liga_titles page_football "title"
           [] rule_liga [] eq_refl eq_refl eq_refl (List.Forall_nil _) Hmiss).
Defined.

Lemma get_target_first_of_many_witness :
  match_all first_liga = false
  /\ tag_identifiers first_liga = rule_liga :: []
  /\ matched exact_strainer first_liga page_football rule_liga
     = liga " line/Football/1-England " "England" :: [liga "line/Football/2-Spain" "Spain"]
  /\ get_target exact_strainer first_liga page_football
     = Returns (PList ["line/Football/1-England"]).
Proof.
  do 3 (split; [side |]).
  exact (get_target_first_of_many exact_strainer first_liga page_football rule_liga []
           (liga " line/Football/1-England " "England")
           [liga "line/Football/2-Spain" "Spain"]
           eq_refl eq_refl ltac:(by_evaluation)).
Defined.

Lemma nullable_irrelevant_without_all_witness :
  match_all (missing None None) = false
  /\ get_target exact_strainer (with_nullable (Some true) (missing None None)) page_ready
     = get_target exact_strainer (missing None None) page_ready.
Proof.
  split; [side |].
  exact (nullable_irrelevant_without_all exact_strainer (missing None None) page_ready
           (Some true) eq_refl).
Defined.

Lemma get_target_shape_witness :
  get_target exact_strainer liga_names page_football = Returns (PList ["England"; "Spain"])
  /\ ((PList ["England"; "Spain"] = PStr ""
       /\ is_nullable liga_names = true /\ match_all liga_names = true)
      \/ exists l, PList ["England"; "Spain"] = PList l
                   /\ Forall (fun s => PyStr.strip s = s) l
                   /\ (match_all liga_names = false -> List.length l = 1%nat)).
Proof.
  split; [side |].
  exact (get_target_shape exact_strainer liga_names page_football
           (PList ["England"; "Spain"]) ltac:(by_evaluation)).
Defined.

Lemma id_rule_ignores_the_rest_witness :
  ({[ "id" := "x" ]} : gmap string string) !! "id" = Some "x"
  /\ ({[ "id" := "x"; "class" := "none" ]} : gmap string string) !! "id" = Some "x"
  /\ get_target_traced exact_strainer
       (with_rules (("div", {[ "id" := "x" ]}) :: []) greeting) page_ready
     = get_target_traced exact_strainer
         (with_rules (("span", {[ "id" := "x"; "class" := "none" ]}) :: []) greeting)
         page_ready.
Proof.
  assert (H1 : ({[ "id" := "x" ]} : gmap string string) !! "id" = Some "x")
    by by_evaluation.
  assert (H2 : ({[ "id" := "x"; "class" := "none" ]} : gmap string string) !! "id"
               = Some "x") by by_evaluation.
  split; [exact H1 |]. split; [exact H2 |].
  exact (id_rule_ignores_the_rest exact_strainer greeting page_ready "x"
           "div" {[ "id" := "x" ]} "span" {[ "id" := "x"; "class" := "none" ]} []
           H1 H2).
Defined.

Local Abbreviation check_more := (check_page_loaded exact_strainer Demo.parse).
Local Abbreviation run_more := (run exact_strainer Demo.parse no_requests).

Lemma check_page_loaded_zero_budget_witness :
  page_load_checker (dynamic checker_all driver_ready_on_third) = Some checker_all
  /\ check_more 7 0 (dynamic checker_all driver_ready_on_third, fresh_world)
     = Some (Returns false,
             (set_page_load_checker (Some (set_nullable checker_all))
                (dynamic checker_all driver_ready_on_third), fresh_world)).
Proof.
  split; [side |].
  exact (check_page_loaded_zero_budget exact_strainer Demo.parse 7
           (dynamic checker_all driver_ready_on_third) fresh_world checker_all eq_refl).
Defined.

Lemma check_page_loaded_negative_budget_witness :
  driver (dynamic checker_all driver_never_ready) = Some driver_never_ready
  /\ page_load_checker (dynamic checker_all driver_never_ready) = Some checker_all
  /\ -1 < 0
  /\ (forall i, exists v,
        get_target exact_strainer (set_nullable checker_all)
          (polled Demo.parse driver_never_ready fresh_world i) = Returns v
        /\ truthy v = false)
  /\ check_more 40 (-1) (dynamic checker_all driver_never_ready, fresh_world) = None.
Proof.
  assert (Hnever : forall i, exists v,
             get_target exact_strainer (set_nullable checker_all)
               (polled Demo.parse driver_never_ready fresh_world i) = Returns v
             /\ truthy v = false)
    by (intros i; exists (PStr ""); split; by_evaluation).
  do 2 (split; [side |]). split; [lia |]. split; [exact Hnever |].
  exact (check_page_loaded_negative_budget exact_strainer Demo.parse 40 (-1)
           (dynamic checker_all driver_never_ready) fresh_world driver_never_ready
           checker_all eq_refl eq_refl ltac:(lia) Hnever).
Defined.

Lemma check_page_loaded_within_budget_witness :
  0 <= 5
  /\ check_more 5 5 (dynamic checker_all driver_ready_on_third, fresh_world)
     = Some (Returns true,
             (set_page_load_checker (Some (set_nullable checker_all))
                (dynamic checker_all driver_ready_on_third), ticks 3 fresh_world))
  /\ exists n,
       slept (ticks 3 fresh_world) = (slept fresh_world + n)%nat
       /\ (reads (ticks 3 fresh_world) <= reads fresh_world + n)%nat
       /\ Z.of_nat n <= 5
       /\ (Returns true = Returns false -> Z.of_nat n = 5)
       /\ (Returns true = Returns true -> (1 <= n)%nat).
Proof.
  split; [lia |]. split; [side |].
  exact (check_page_loaded_within_budget exact_strainer Demo.parse 5 5
           (dynamic checker_all driver_ready_on_third) fresh_world (Returns true)
           (set_page_load_checker (Some (set_nullable checker_all))
              (dynamic checker_all driver_ready_on_third), ticks 3 fresh_world)
           ltac:(lia) ltac:(by_evaluation)).
Defined.

Lemma check_page_loaded_first_round_decides_witness :
  driver (dynamic checker_first driver_ready_on_third) = Some driver_ready_on_third
  /\ page_load_checker (dynamic checker_first driver_ready_on_third) = Some checker_first
  /\ match_all checker_first = false
  /\ attr checker_first = None
  /\ tag_identifiers checker_first = rule_div :: []
  /\ 5 <> 0
  /\ check_more 1 5 (dynamic checker_first driver_ready_on_third, fresh_world)
     = Some (if nonempty (matched exact_strainer checker_first
                            (polled Demo.parse driver_ready_on_third fresh_world 0)
                            rule_div)
             then Returns true
             else Raises (AttributeError "get_text"),
             (set_page_load_checker (Some (set_nullable checker_first))
                (dynamic checker_first driver_ready_on_third), ticks 1 fresh_world)).
Proof.
  do 5 (split; [side |]). split; [discriminate |].
  exact (check_page_loaded_first_round_decides exact_strainer Demo.parse 0 5
           (dynamic checker_first driver_ready_on_third) fresh_world
           driver_ready_on_third checker_first rule_div []
           eq_refl eq_refl eq_refl eq_refl eq_refl ltac:(discriminate)).
Defined.

Lemma remove_useless_adds_no_match_witness :
  find_all exact_strainer page_football (Some "span") ∅ = []
  /\ find_all exact_strainer (remove_useless page_football) (Some "span") ∅ = [].
Proof.
  split; [side |].
  exact (remove_useless_adds_no_match exact_strainer page_football (Some "span") ∅
           ltac:(by_evaluation)).
Defined.

(** The scrapper of the examples below: SOUP mode on [page_ready], with
    [ts] for targets and the extra function filed under ["text"]. *)
Local Abbreviation soup_scrapper ts :=
  (scrapper SOUP (Some example_url) None ts None (Some page_ready)).

Lemma resolve_keys_witness :
  resolve exact_strainer (remove_useless page_ready) (given (Some example_url))
  = Returns {[ "greeting" := PList ["hello"]; "code" := PStr "";
               "text" := PStr " hello " ]}
  /\ forall k,
       is_Some (({[ "greeting" := PList ["hello"]; "code" := PStr "";
                    "text" := PStr " hello " ]} : gmap string pyval) !! k)
       <-> In (Some k) (map key (targets (given (Some example_url))))
           \/ In k (map fst (extra_functions (given (Some example_url)))).
Proof.
  split; [side |].
  exact (resolve_keys exact_strainer (remove_useless page_ready) (given (Some example_url))
           _ ltac:(by_evaluation)).
Defined.

Lemma extra_function_has_last_word_witness :
  resolve exact_strainer (remove_useless page_ready) (soup_scrapper [text_target])
  = Returns {[ "text" := PStr " hello " ]}
  /\ List.NoDup (map fst (extra_functions (soup_scrapper [text_target])))
  /\ In ("text", fun d : Soup => Returns (PStr (soup_text d)))
        (extra_functions (soup_scrapper [text_target]))
  /\ get_target exact_strainer text_target (remove_useless page_ready)
     = Returns (PList ["hello"])
  /\ exists v, Returns (PStr (soup_text (remove_useless page_ready))) = Returns v
               /\ ({[ "text" := PStr " hello " ]} : gmap string pyval) !! "text" = Some v.
Proof.
  assert (Hnodup : List.NoDup (map fst (extra_functions (soup_scrapper [text_target]))))
    by (repeat constructor; intros []).
  assert (Hin : In ("text", fun d : Soup => Returns (PStr (soup_text d)))
                   (extra_functions (soup_scrapper [text_target])))
    by (left; reflexivity).
  split; [side |]. split; [exact Hnodup |]. split; [exact Hin |]. split; [side |].
  exact (extra_function_has_last_word exact_strainer (remove_useless page_ready)
           (soup_scrapper [text_target]) _ "text" _ ltac:(by_evaluation) Hnodup Hin).
Defined.

Lemma failing_target_aborts_witness :
  targets (soup_scrapper [greeting; missing None None; code])
  = [greeting] ++ missing None None :: [code]
  /\ Forall (fun t' => is_Some (key t')
                       /\ exists v, get_target exact_strainer t'
                                      (remove_useless page_ready) = Returns v)
       [greeting]
  /\ get_target exact_strainer (missing None None) (remove_useless page_ready)
     = Raises (AttributeError "get_text")
  /\ resolve exact_strainer (remove_useless page_ready)
       (soup_scrapper [greeting; missing None None; code])
     = Raises (AttributeError "get_text").
Proof.
  assert (Hfine : Forall (fun t' => is_Some (key t')
                            /\ exists v, get_target exact_strainer t'
                                           (remove_useless page_ready) = Returns v)
                    [greeting]).
  { repeat constructor; [eexists; reflexivity |].
    exists (PList ["hello"]). by_evaluation. }
  split; [side |]. split; [exact Hfine |]. split; [side |].
  exact (failing_target_aborts exact_strainer (remove_useless page_ready)
           (soup_scrapper [greeting; missing None None; code])
           [greeting] (missing None None) [code] _ eq_refl Hfine ltac:(by_evaluation)).
Defined.

Lemma target_without_key_witness :
  targets (soup_scrapper [greeting; checker_first]) = [greeting] ++ checker_first :: []
  /\ Forall (fun t' => is_Some (key t')
                       /\ exists v, get_target exact_strainer t'
                                      (remove_useless page_ready) = Returns v)
       [greeting]
  /\ key checker_first = None
  /\ get_target exact_strainer checker_first (remove_useless page_ready)
     = Returns (PList ["hello"])
  /\ resolve exact_strainer (remove_useless page_ready)
       (soup_scrapper [greeting; checker_first])
     = Raises (KeyError "key").
Proof.
  assert (Hfine : Forall (fun t' => is_Some (key t')
                            /\ exists v, get_target exact_strainer t'
                                           (remove_useless page_ready) = Returns v)
                    [greeting]).
  { repeat constructor; [eexists; reflexivity |].
    exists (PList ["hello"]). by_evaluation. }
  split; [side |]. split; [exact Hfine |]. do 2 (split; [side |]).
  exact (target_without_key exact_strainer (remove_useless page_ready)
           (soup_scrapper [greeting; checker_first])
           [greeting] checker_first [] (PList ["hello"]) eq_refl Hfine eq_refl
           ltac:(by_evaluation)).
Defined.

Lemma run_soup_without_document_witness :
  mode (scrapper SOUP (Some example_url) None [greeting] None None) = SOUP
  /\ url (scrapper SOUP (Some example_url) None [greeting] None None) = Some example_url
  /\ soup (scrapper SOUP (Some example_url) None [greeting] None None) = None
  /\ run_more (scrapper SOUP (Some example_url) None [greeting] None None, fresh_world)
     = Some (Raises (ValueError "soup cannot be empty"),
             (scrapper SOUP (Some example_url) None [greeting] None None, fresh_world)).
Proof.
  do 3 (split; [side |]).
  exact (run_soup_without_document exact_strainer Demo.parse no_requests
           (scrapper SOUP (Some example_url) None [greeting] None None) fresh_world
           example_url eq_refl eq_refl eq_refl).
Defined.

Lemma run_soup_in_place_witness :
  mode (given (Some example_url)) = SOUP
  /\ url (given (Some example_url)) = Some example_url
  /\ soup (given (Some example_url)) = Some page_ready
  /\ run_more (given (Some example_url), fresh_world)
     = Some (resolve exact_strainer (remove_useless page_ready) (given (Some example_url)),
             (set_soup (Some (remove_useless page_ready)) (given (Some example_url)),
              fresh_world)).
Proof.
  do 3 (split; [side |]).
  exact (run_soup_in_place exact_strainer Demo.parse no_requests
           (given (Some example_url)) fresh_world example_url page_ready
           eq_refl eq_refl eq_refl).
Defined.

Lemma run_soup_repeatable_witness :
  mode (given (Some example_url)) = SOUP
  /\ run_more (given (Some example_url), fresh_world)
     = Some (Returns {[ "greeting" := PList ["hello"]; "code" := PStr "";
                        "text" := PStr " hello " ]},
             (set_soup (Some (remove_useless page_ready)) (given (Some example_url)),
              fresh_world))
  /\ run_more (set_soup (Some (remove_useless page_ready)) (given (Some example_url)),
               fresh_world)
     = Some (Returns {[ "greeting" := PList ["hello"]; "code" := PStr "";
                        "text" := PStr " hello " ]},
             (set_soup (Some (remove_useless page_ready)) (given (Some example_url)),
              fresh_world)).
Proof.
  split; [side |]. split; [side |].
  exact (run_soup_repeatable exact_strainer Demo.parse no_requests
           (given (Some example_url)) fresh_world _ _ eq_refl ltac:(by_evaluation)).
Defined.

Lemma run_static_witness :
  mode (scrapper STATIC (Some example_url) None [greeting] None None) = STATIC
  /\ url (scrapper STATIC (Some example_url) None [greeting] None None)
     = Some example_url
  /\ run exact_strainer Demo.parse fetch_ready
       (scrapper STATIC (Some example_url) None [greeting] None None, fresh_world)
     = Some (Returns {[ "greeting" := PList ["hello"]; "text" := PStr " hello " ]},
             (set_soup (Some (remove_useless page_ready))
                (scrapper STATIC (Some example_url) None [greeting] None None),
              {| visited := []; reads := 0; slept := 0; fetched := [example_url] |})).
Proof.
  do 2 (split; [side |]).
  etransitivity.
  - exact (run_static exact_strainer Demo.parse fetch_ready
             (scrapper STATIC (Some example_url) None [greeting] None None) fresh_world
             example_url eq_refl eq_refl).
  - by_evaluation.
Defined.

Lemma run_dynamic_without_checker_witness :
  mode (scrapper DYNAMIC (Some example_url) None [status] (Some driver_never_ready) None)
  = DYNAMIC
  /\ url (scrapper DYNAMIC (Some example_url) None [status] (Some driver_never_ready) None)
     = Some example_url
  /\ driver (scrapper DYNAMIC (Some example_url) None [status] (Some driver_never_ready)
               None)
     = Some driver_never_ready
  /\ page_load_checker
       (scrapper DYNAMIC (Some example_url) None [status] (Some driver_never_ready) None)
     = None
  /\ run_more
       (scrapper DYNAMIC (Some example_url) None [status] (Some driver_never_ready) None,
        fresh_world)
     = Some (Returns {[ "status" := PList ["loading"]; "text" := PStr "loading" ]},
             (set_soup (Some page_loading)
                (scrapper DYNAMIC (Some example_url) None [status]
                   (Some driver_never_ready) None),
              {| visited := [example_url]; reads := 1; slept := 0; fetched := [] |})).
Proof.
  do 4 (split; [side |]).
  etransitivity.
  - exact (run_dynamic_without_checker exact_strainer Demo.parse no_requests
             (scrapper DYNAMIC (Some example_url) None [status]
                (Some driver_never_ready) None)
             fresh_world example_url driver_never_ready eq_refl eq_refl eq_refl eq_refl).
  - by_evaluation.
Defined.

Lemma main_link_ligas_witness :
  Forall (has_text_attr "href")
    (find_all exact_strainer
       (remove_useless
          (SampleDemo.parse
             (page_source driver_football (visited fresh_world ++ [Sample.base_url])
                (reads fresh_world))))
       (Some "a") {[ "class" := "c-events__liga" ]})
  /\ Sample.main exact_strainer SampleDemo.parse no_requests driver_football fresh_world
     = Some (Returns {[ "link_ligas" :=
                          PList ["line/Football/1-England"; "line/Football/2-Spain"] ]},
             {| visited := [Sample.base_url]; reads := 1; slept := 0; fetched := [] |}).
Proof.
  assert (Hhref : Forall (has_text_attr "href")
            (find_all exact_strainer
               (remove_useless
                  (SampleDemo.parse
                     (page_source driver_football
                        (visited fresh_world ++ [Sample.base_url]) (reads fresh_world))))
               (Some "a") {[ "class" := "c-events__liga" ]})).
  { replace (find_all _ _ _ _)
      with [liga " line/Football/1-England " "England"; liga "line/Football/2-Spain" "Spain"]
      by by_evaluation.
    repeat constructor; eexists; by_evaluation. }
  split; [exact Hhref |].
  etransitivity.
  - exact (main_link_ligas exact_strainer SampleDemo.parse no_requests driver_football
             fresh_world Hhref).
  - by_evaluation.
Defined.

(** [str.strip] on white space beyond ASCII: U+00A0 ([C2 A0]) before
    and U+3000 ([E3 80 80]) after the text are removed; the last byte
    [A0] of a letter ([C3 A0]) is not taken for white space. *)
Example strip_beyond_ascii :
  PyStr.strip (String (ascii_of_nat 194) (String (ascii_of_nat 160)
                 (String.append "hello"
                    (String (ascii_of_nat 227) (String (ascii_of_nat 128)
                       (String (ascii_of_nat 128) EmptyString))))))
  = "hello"
  /\ PyStr.strip (String.append " voil"
                    (String (ascii_of_nat 195) (String (ascii_of_nat 160) " ")))
     = String.append "voil" (String (ascii_of_nat 195) (String (ascii_of_nat 160) EmptyString)).
Proof. split; by_evaluation. Qed.

(** [get_text()] of a tag leaves out the script it holds, on a document
    that has not been stripped; [get('class')] is a list, on which
    [strip] raises. *)
Example text_and_attributes_of_a_parsed_page :
  get_target exact_strainer greeting
    [Tag "div" {[ "id" := AttrStr "x" ]}
       [NavigableString "hello ";
        Tag "script" ∅ [SpecialString Script "ignored()"]]]
  = Returns (PList ["hello"])
  /\ get_target exact_strainer
       {| key := Some "classes"; tag_identifiers := [rule_liga];
          attr := Some "class"; nullable := None; all := Some true |}
       page_football
     = Raises (AttributeError "strip").
Proof. split; by_evaluation. Qed.

End MoreExamples.
